(** * Solar forecast and weather analysis engine

    A shallow embedding of the forecasting pipeline of
    [services/storageService.ts] ([calculateSolarPosition],
    [calculateCloudImpact], [estimateAerosolFactor],
    [calculateClearSkyIrradiance], [decomposeIrradiance],
    [predictConfidence], [generateSolarForecast]) and of the weather
    analyzer ([analyzeWeatherTrends], [calculateForecastQuality]).

    JavaScript numbers are modelled as the reals extended with [NaN],
    [+Infinity] and [-Infinity]: the special values propagate as ECMAScript
    prescribes, finite arithmetic is exact (binary64 rounding, overflow and
    the sign of zero are not modelled). *)

From Stdlib Require Import Reals Lra Lia List String Bool ZArith.
Import ListNotations.
Local Open Scope R_scope.

(** ** JavaScript numbers *)

Module JS.

Inductive number : Type :=
  | NaN
  | Inf (negative : bool)
  | Fin (r : R).

Definition PInf : number := Inf false.
Definition NInf : number := Inf true.

Definition Rneg (r : R) : bool := if Rlt_dec r 0 then true else false.

Definition neg (x : number) : number :=
  match x with
  | NaN => NaN
  | Inf s => Inf (negb s)
  | Fin r => Fin (- r)
  end.

Definition add (x y : number) : number :=
  match x, y with
  | NaN, _ | _, NaN => NaN
  | Inf s, Inf t => if Bool.eqb s t then Inf s else NaN
  | Inf s, Fin _ => Inf s
  | Fin _, Inf t => Inf t
  | Fin a, Fin b => Fin (a + b)
  end.

Definition sub (x y : number) : number := add x (neg y).

Definition mul (x y : number) : number :=
  match x, y with
  | NaN, _ | _, NaN => NaN
  | Inf s, Inf t => Inf (xorb s t)
  | Inf s, Fin r => if Req_dec_T r 0 then NaN else Inf (xorb s (Rneg r))
  | Fin r, Inf t => if Req_dec_T r 0 then NaN else Inf (xorb (Rneg r) t)
  | Fin a, Fin b => Fin (a * b)
  end.

(** Division; a zero divisor is read as [+0]. *)
Definition div (x y : number) : number :=
  match x, y with
  | NaN, _ | _, NaN => NaN
  | Inf _, Inf _ => NaN
  | Inf s, Fin r => Inf (xorb s (Rneg r))
  | Fin _, Inf _ => Fin 0
  | Fin a, Fin b =>
      if Req_dec_T b 0
      then (if Req_dec_T a 0 then NaN else Inf (Rneg a))
      else Fin (a / b)
  end.

(** Comparisons: every comparison with [NaN] is false. *)
Definition lt (x y : number) : bool :=
  match x, y with
  | NaN, _ | _, NaN => false
  | Inf s, Inf t => s && negb t
  | Inf s, Fin _ => s
  | Fin _, Inf t => negb t
  | Fin a, Fin b => if Rlt_dec a b then true else false
  end.

Definition le (x y : number) : bool :=
  match x, y with
  | NaN, _ | _, NaN => false
  | Inf s, Inf t => s || negb t
  | Inf s, Fin _ => s
  | Fin _, Inf t => negb t
  | Fin a, Fin b => if Rle_dec a b then true else false
  end.

Definition gt (x y : number) : bool := lt y x.
Definition ge (x y : number) : bool := le y x.

(** Strict inequality [x !== y] on numbers. *)
Definition sneq (x y : number) : bool :=
  match x, y with
  | NaN, _ | _, NaN => true
  | Inf s, Inf t => negb (Bool.eqb s t)
  | Inf _, Fin _ | Fin _, Inf _ => true
  | Fin a, Fin b => if Req_dec_T a b then false else true
  end.

(** Truthiness of a number: [NaN] and [0] are falsy. *)
Definition truthy (x : number) : bool :=
  match x with
  | NaN => false
  | Inf _ => true
  | Fin r => if Req_dec_T r 0 then false else true
  end.

(** [v || d] where [v] is an array read: [None] stands for [undefined]. *)
Definition orElse (v : option number) (d : number) : number :=
  match v with
  | Some x => if truthy x then x else d
  | None => d
  end.

(** An array read used in arithmetic: [undefined] coerces to [NaN]. *)
Definition toNumber (v : option number) : number :=
  match v with
  | Some x => x
  | None => NaN
  end.

Definition isFinite (x : number) : bool :=
  match x with
  | Fin _ => true
  | _ => false
  end.

Definition ofNat (n : nat) : number := Fin (INR n).

End JS.

Export JS.

Coercion Fin : R >-> number.

Declare Scope js_scope.
Delimit Scope js_scope with js.
Bind Scope js_scope with number.

Infix "+" := add : js_scope.
Infix "-" := sub : js_scope.
Infix "*" := mul : js_scope.
Infix "/" := div : js_scope.
Notation "- x" := (neg x) : js_scope.
Infix "<?" := lt (at level 70, no associativity) : js_scope.
Infix "<=?" := le (at level 70, no associativity) : js_scope.
Infix ">?" := gt (at level 70, no associativity) : js_scope.
Infix "!==" := sneq (at level 70, no associativity) : js_scope.

(** ** The [Math] object *)

Module Math.

Definition PI : number := Fin Rtrigo1.PI.

Definition max (x y : number) : number :=
  match x, y with
  | NaN, _ | _, NaN => NaN
  | _, _ => if lt x y then y else x
  end.

Definition min (x y : number) : number :=
  match x, y with
  | NaN, _ | _, NaN => NaN
  | _, _ => if lt y x then y else x
  end.

Definition abs (x : number) : number :=
  match x with
  | NaN => NaN
  | Inf _ => PInf
  | Fin r => Fin (Rabs r)
  end.

Definition sin (x : number) : number :=
  match x with
  | Fin r => Fin (Rtrigo_def.sin r)
  | _ => NaN
  end.

Definition cos (x : number) : number :=
  match x with
  | Fin r => Fin (Rtrigo_def.cos r)
  | _ => NaN
  end.

Definition asin (x : number) : number :=
  match x with
  | Fin r =>
      if Rle_dec (-1) r then
        if Rle_dec r 1 then Fin (Ratan.asin r) else NaN
      else NaN
  | _ => NaN
  end.

Definition acos (x : number) : number :=
  match x with
  | Fin r =>
      if Rle_dec (-1) r then
        if Rle_dec r 1 then Fin (Ratan.acos r) else NaN
      else NaN
  | _ => NaN
  end.

Definition exp (x : number) : number :=
  match x with
  | NaN => NaN
  | Inf false => PInf
  | Inf true => Fin 0
  | Fin r => Fin (Rtrigo_def.exp r)
  end.

Definition sqrt (x : number) : number :=
  match x with
  | NaN => NaN
  | Inf false => PInf
  | Inf true => NaN
  | Fin r => if Rlt_dec r 0 then NaN else Fin (R_sqrt.sqrt r)
  end.

Definition floor (x : number) : number :=
  match x with
  | Fin r => Fin (IZR (Int_part r))
  | _ => x
  end.

(** [Math.pow base e] for a finite exponent [e]: every call of the
    program passes a numeric literal as exponent. *)
Definition pow (base : number) (e : R) : number :=
  if Req_dec_T e 0 then Fin 1
  else
    let whole := if Req_dec_T (IZR (Int_part e)) e then true else false in
    let odd := whole && Z.odd (Int_part e) in
    match base with
    | NaN => NaN
    | Inf false => if Rlt_dec 0 e then PInf else Fin 0
    | Inf true => if Rlt_dec 0 e then (if odd then NInf else PInf) else Fin 0
    | Fin b =>
        if Rlt_dec 0 b then Fin (Rpower b e)
        else if Req_dec_T b 0 then (if Rlt_dec 0 e then Fin 0 else PInf)
        else if whole then Fin (powerRZ b (Int_part e))
        else NaN
    end.

End Math.

(** [Number(x.toFixed(digits))]: the decimal with [digits] fraction digits
    nearest to [x], ties away from zero; numbers of magnitude [1e21] and
    more, and the special values, print and read back unchanged. *)
Definition roundHalfAway (r : R) : R :=
  if Rlt_dec r 0 then - IZR (Int_part (- r + / 2)) else IZR (Int_part (r + / 2)).

Definition toFixed (x : number) (digits : nat) : number :=
  match x with
  | Fin r =>
      if Rle_dec (10 ^ 21) (Rabs r) then Fin r
      else Fin (roundHalfAway (r * 10 ^ digits) / 10 ^ digits)
  | _ => x
  end.

(** ** Data model ([types.ts]) *)

(** A coordinate of [LocationData]: declared a string, accepted as a
    number as well by [generateSolarForecast]. *)
Inductive Coord : Type :=
  | CoordString (s : string)
  | CoordNumber (n : number).

Record LocationData : Type := {
  latitude : Coord;
  longitude : Coord
}.

Record SolarDataPoint : Type := {
  timestamp : string;
  irradiance : number;
  temperature : option number
}.

Module ForecastPoint.
Record t : Type := mk {
  time : string;
  predictedIrradiance : number;
  confidence : number
}.
End ForecastPoint.

Record WeatherForecastData : Type := {
  time : list string;
  temperature_2m : list number;
  cloud_cover : list number;
  shortwave_radiation : list number
}.

(** [EnhancedWeatherForecast extends WeatherForecastData]; an optional
    channel that is absent is [None]. *)
Record EnhancedWeatherForecast : Type := {
  base :> WeatherForecastData;
  humidity : option (list number);
  windSpeed : option (list number);
  windDirection : option (list number);
  pressure : option (list number);
  precipitation : option (list number)
}.

Record WeatherTrends : Type := {
  tempTrend : number;
  cloudCoverTrend : number;
  windSpeedTrend : number;
  pressureTrend : number;
  humidityTrend : number
}.

(** What the program reads of a [Date] object: [getTime()], the epoch time
    of [new Date(date.getFullYear(), 0, 0)], [getUTCHours()] and
    [getUTCMinutes()]. An invalid date has [NaN] in every field. *)
Record JSDate : Type := {
  getTime : number;
  startOfYear : number;
  getUTCHours : number;
  getUTCMinutes : number
}.

Record SolarPosition : Type := {
  zenithAngle : number;
  elevation : number;
  azimuth : number
}.

Record Irradiance : Type := {
  dni : number;
  dhi : number
}.

(** The result of an [async] function. *)
Inductive Promise (A : Type) : Type :=
  | Resolved (value : A)
  | Rejected (message : string).
Arguments Resolved {A} value.
Arguments Rejected {A} message.

(** [array.map((x, index) => f index x)] *)
Fixpoint mapFrom {A B : Type} (f : nat -> A -> B) (start : nat) (l : list A) : list B :=
  match l with
  | [] => []
  | x :: rest => f start x :: mapFrom f (S start) rest
  end.

Definition mapi {A B : Type} (f : nat -> A -> B) (l : list A) : list B :=
  mapFrom f 0 l.

(** [array.forEach((x, index) => ...)] updating local variables [St]. *)
Fixpoint forEachFrom {A St : Type} (body : St -> A -> nat -> St) (start : nat)
    (l : list A) (s : St) : St :=
  match l with
  | [] => s
  | x :: rest => forEachFrom body (S start) rest (body s x start)
  end.

Definition forEach {A St : Type} (body : St -> A -> nat -> St) (l : list A)
    (s : St) : St :=
  forEachFrom body 0 l s.

(** [array.reduce(f, init)] *)
Definition reduce {A St : Type} (f : St -> A -> St) (init : St) (l : list A) : St :=
  fold_left f l init.

(** [array.slice(0, n)] for [n >= 0] *)
Definition slice0 {A : Type} (n : nat) (l : list A) : list A := firstn n l.

(** ** The forecast pipeline ([services/storageService.ts]) *)

Definition calculateSolarPosition (latitude longitude : number) (date : JSDate)
    : SolarPosition :=
  (let dayOfYear :=
     Math.floor ((getTime date - startOfYear date) / 86400000) in
   let gamma := (2 * Math.PI * (dayOfYear - 1)) / 365 in
   let declination :=
     0.006918 -
     0.399912 * Math.cos gamma +
     0.070257 * Math.sin gamma -
     0.006758 * Math.cos (2 * gamma) +
     0.000907 * Math.sin (2 * gamma) -
     0.00205 * Math.cos (3 * gamma) +
     0.00029 * Math.sin (3 * gamma) in
   let eot :=
     229.18 *
     (0.017645 * Math.sin (2 * gamma) -
      0.033827 * Math.cos gamma -
      0.00969 * Math.sin gamma -
      0.00569 * Math.cos (2 * gamma)) in
   let utcMinutes := getUTCHours date * 60 + getUTCMinutes date in
   let localMinutes := utcMinutes in
   let solarMinutes := localMinutes + eot + longitude * 4 in
   let solarHours := solarMinutes / 60 in
   let hourAngle := ((solarHours - 12) * 15 * Math.PI) / 180 in
   let latRad := (latitude * Math.PI) / 180 in
   let sinElevation :=
     Math.sin latRad * Math.sin declination +
     Math.cos latRad * Math.cos declination * Math.cos hourAngle in
   let elevation := Math.asin (Math.max (-1) (Math.min 1 sinElevation)) in
   let zenithAngle := (Math.PI / 2) - elevation in
   let azimuth :=
     if elevation >? 0 then
       let cosAzimuth :=
         (Math.sin declination - Math.sin elevation * Math.sin latRad) /
         (Math.cos elevation * Math.cos latRad) in
       let azimuth := Math.acos (Math.max (-1) (Math.min 1 cosAzimuth)) in
       if Math.sin hourAngle >? 0 then 2 * Math.PI - azimuth else azimuth
     else 0 in
   {| zenithAngle := zenithAngle * (180 / Math.PI);
      elevation := elevation * (180 / Math.PI);
      azimuth := azimuth * (180 / Math.PI) |})%js.

Definition calculateCloudImpact (cloudCover temperature : number) : number :=
  (if cloudCover <? 10 then 0.95
   else if cloudCover >? 90 then 0.15
   else
     let cloudOpacity := Math.pow (cloudCover / 100) 1.3 in
     let tempFactor := Math.max 0.8 (Math.min 1.0 ((temperature + 5) / 45)) in
     let reduction := 1 - cloudOpacity * tempFactor * 0.85 in
     Math.max 0.1 reduction)%js.

Definition estimateAerosolFactor (elevation : number) : number :=
  (if elevation <? 0 then 0
   else if elevation <? 10 then 0.85
   else if elevation <? 20 then 0.90
   else if elevation <? 30 then 0.93
   else 0.95)%js.

Definition calculateClearSkyIrradiance (elevation zenithAngle : number) : number :=
  (if elevation <=? 0 then 0
   else
     let zenithRad := (zenithAngle * Math.PI) / 180 in
     let airmass :=
       1 / (Math.cos zenithRad +
            0.50572 * Math.pow (96.07995 - zenithAngle) (-1.6364)) in
     let c0 := 910.6 in
     let c1 := 0.6797 in
     let c2 := -0.00639 in
     let clearSkyGHI :=
       c0 * Math.exp (c1 - c2 * airmass) * Math.max 0 (Math.cos zenithRad) in
     Math.max 0 clearSkyGHI)%js.

Definition decomposeIrradiance (ghi elevation cloudCover : number) : Irradiance :=
  (if elevation <=? 0 then {| dni := 0; dhi := 0 |}
   else
     let elevation_rad := (elevation * Math.PI) / 180 in
     let clearSkyGHI := calculateClearSkyIrradiance elevation (90 - elevation) in
     let clearness :=
       if clearSkyGHI >? 0 then Math.min 1 (ghi / clearSkyGHI) else 0 in
     let dhi :=
       if clearness <=? 0.3 then
         ghi * (1.020 - 0.254 * clearness + 0.0123 * Math.sin elevation_rad)
       else if clearness <=? 0.78 then
         ghi * (0.972 - 0.306 * clearness + 0.0311 * Math.sin elevation_rad)
       else
         ghi * (0.29 * clearness + 0.0049 * Math.sin elevation_rad) in
     let dni :=
       Math.max 0 ((ghi - dhi) / Math.max 0.01 (Math.sin elevation_rad)) in
     {| dni := Math.max 0 dni; dhi := Math.max 0 dhi |})%js.

Definition predictConfidence (cloudCover elevation temperature : number)
    (index : nat) (weatherData : WeatherForecastData) : number :=
  (if elevation <? 0 then 0.95
   else
     let cloudVariance :=
       if ((0 <? Z.of_nat index)%Z &&
           (Z.of_nat index <? Z.of_nat (List.length (cloud_cover weatherData)) - 1)%Z)%bool
       then
         let prevCloud := toNumber (nth_error (cloud_cover weatherData) (index - 1)) in
         let nextCloud := toNumber (nth_error (cloud_cover weatherData) (index + 1)) in
         Math.abs (prevCloud - nextCloud) / 100
       else 0 in
     let cloudConfidence := 1 - cloudVariance * 0.4 in
     let elevationConfidence := Math.min 1 (elevation / 80) in
     let tempConfidence :=
       if ((temperature <? -10) || (temperature >? 40))%bool then 0.7 else 0.9 in
     Math.max 0.1 (cloudConfidence * elevationConfidence * tempConfidence))%js.

Section Forecast.

(** The host's [parseFloat] and [new Date(string)]. *)
Variable parseFloat : string -> number.
Variable newDate : string -> JSDate.

Definition coordinate (c : Coord) : number :=
  match c with
  | CoordString s => parseFloat s
  | CoordNumber n => n
  end.

Definition systemEfficiency : number := 0.85.
Definition temperatureCoefficient : number := (-0.004)%R.

(** The callback of [weatherForecast.time.map] in [generateSolarForecast]. *)
Definition forecastSample (lat lon : number) (weatherForecast : WeatherForecastData)
    (time : string) (index : nat) : ForecastPoint.t :=
  (let date := newDate time in
   let temperature := orElse (nth_error (temperature_2m weatherForecast) index) 25 in
   let cloudCover := orElse (nth_error (cloud_cover weatherForecast) index) 0 in
   let baseGHI := orElse (nth_error (shortwave_radiation weatherForecast) index) 0 in
   let solarPos := calculateSolarPosition lat lon date in
   if elevation solarPos <? 0 then
     ForecastPoint.mk time 0 0.95
   else
     let clearSkyGHI :=
       calculateClearSkyIrradiance (elevation solarPos) (zenithAngle solarPos) in
     let cloudImpact := calculateCloudImpact cloudCover temperature in
     let aerosolFactor := estimateAerosolFactor (elevation solarPos) in
     let predictedGHI := Math.max 0 (baseGHI * cloudImpact * aerosolFactor) in
     let tempDeviation := Math.max 0 (temperature - 25) in
     let tempLossFactor := 1 + temperatureCoefficient * tempDeviation in
     let predictedIrradiance :=
       Math.max 0 (predictedGHI * systemEfficiency * tempLossFactor) in
     let decomposed :=
       decomposeIrradiance predictedGHI (elevation solarPos) cloudCover in
     let confidence :=
       predictConfidence cloudCover (elevation solarPos) temperature index
         weatherForecast in
     ForecastPoint.mk time predictedIrradiance confidence)%js.

(** No statement of the [try] block throws on inputs of the declared types,
    so the [catch] clause, the only source of a rejection, is never entered. *)
Definition generateSolarForecast (location : LocationData)
    (historicalData : list SolarDataPoint) (weatherForecast : WeatherForecastData)
    : Promise (list ForecastPoint.t) :=
  let lat := coordinate (latitude location) in
  let lon := coordinate (longitude location) in
  let forecast :=
    mapi (fun index time => forecastSample lat lon weatherForecast time index)
      (time weatherForecast) in
  Resolved forecast.

End Forecast.

(** ** The weather analyzer *)

(** [value || []] for an optional channel. *)
Definition orEmpty (channel : option (list number)) : list number :=
  match channel with
  | Some data => data
  | None => []
  end.

(** The local variables [numerator] and [denominator] of [calculateTrend]. *)
Record TrendSums : Type := {
  numerator : number;
  denominator : number
}.

(** The closure [calculateTrend] of [analyzeWeatherTrends], with the
    captured window size [n] as a parameter. *)
Definition calculateTrend (n : nat) (data : list number) : number :=
  (let slice := slice0 n data in
   if (List.length slice <? 2)%nat then 0
   else
     let xMean := (ofNat (List.length slice) - 1) / 2 in
     let yMean :=
       reduce (fun a b => a + b) (Fin 0) slice / ofNat (List.length slice) in
     let sums :=
       forEach
         (fun acc y x =>
            {| numerator := numerator acc + (ofNat x - xMean) * (y - yMean);
               denominator := denominator acc + Math.pow (ofNat x - xMean) 2 |})
         slice {| numerator := 0; denominator := 0 |} in
     if denominator sums !== 0 then numerator sums / denominator sums else 0)%js.

Definition analyzeWeatherTrends (forecastData : EnhancedWeatherForecast)
    : WeatherTrends :=
  let n := Nat.min 24 (List.length (temperature_2m forecastData)) in
  if (n <? 2)%nat then
    {| tempTrend := 0; cloudCoverTrend := 0; windSpeedTrend := 0;
       pressureTrend := 0; humidityTrend := 0 |}
  else
    {| tempTrend := toFixed (calculateTrend n (temperature_2m forecastData)) 3;
       cloudCoverTrend := toFixed (calculateTrend n (cloud_cover forecastData)) 2;
       windSpeedTrend :=
         toFixed (calculateTrend n (orEmpty (windSpeed forecastData))) 3;
       pressureTrend :=
         toFixed (calculateTrend n (orEmpty (pressure forecastData))) 2;
       humidityTrend :=
         toFixed (calculateTrend n (orEmpty (humidity forecastData))) 2 |}.

Definition calculateForecastQuality (forecastData : EnhancedWeatherForecast)
    : number :=
  (if (List.length (temperature_2m forecastData) =? 0)%nat then 0.5
   else
     let n := Nat.min 24 (List.length (temperature_2m forecastData)) in
     let temps := slice0 n (temperature_2m forecastData) in
     let tempMean :=
       reduce (fun a b => a + b) (Fin 0) temps / ofNat (List.length temps) in
     let tempVariance :=
       reduce (fun sum t => sum + Math.pow (t - tempMean) 2) (Fin 0) temps /
       ofNat (List.length temps) in
     let tempStability := Math.max 0.3 (1 - Math.sqrt tempVariance / 20) in
     let clouds := slice0 n (cloud_cover forecastData) in
     let cloudMean :=
       reduce (fun a b => a + b) (Fin 0) clouds / ofNat (List.length clouds) in
     let cloudVariance :=
       reduce (fun sum c => sum + Math.pow (c - cloudMean) 2) (Fin 0) clouds /
       ofNat (List.length clouds) in
     let cloudStability := Math.max 0.3 (1 - Math.sqrt cloudVariance / 40) in
     let precip :=
       match precipitation forecastData with
       | Some p => slice0 n p
       | None => []
       end in
     let hasPrecip := existsb (fun p => p >? 0) precip in
     let precipFactor : number := if hasPrecip then 0.85 else 1.0 in
     let quality :=
       tempStability * 0.4 + cloudStability * 0.4 + precipFactor * 0.2 in
     Math.min 0.99 (Math.max 0.1 quality))%js.

(** ** The specification's formulas, for comparison with the code *)

(** §4.2: [airmass = 1 / (cos(zenithRad) + 0.50572·(96.07995−zenith)^(−1.6364))],
    [clearSkyGHI = 910.6 · exp(0.6797 + 0.00639·airmass) · max(0, cos(zenithRad))],
    floored at 0, and 0 when elevation≤0. *)
Definition clearSkySpec (elevation zenith : number) : number :=
  (if elevation <=? 0 then 0
   else
     let zenithRad := zenith * Math.PI / 180 in
     let airmass :=
       1 / (Math.cos zenithRad + 0.50572 * Math.pow (96.07995 - zenith) (-1.6364)) in
     Math.max 0
       (910.6 * Math.exp (0.6797 + 0.00639 * airmass) *
        Math.max 0 (Math.cos zenithRad)))%js.

(** §4.7: [predictedIrradiance = max(0, max(0, observedShortwaveRadiation ·
    cloudImpact · aerosolFactor) · 0.85 · (1 − 0.004·max(0, temperature − 25)))]. *)
Definition irradianceFormula
    (observedShortwaveRadiation cloudImpact aerosolFactor temperature : number)
    : number :=
  (Math.max 0
     (Math.max 0 (observedShortwaveRadiation * cloudImpact * aerosolFactor) *
      0.85 * (1 - 0.004 * Math.max 0 (temperature - 25))))%js.

(** §4.8: the ordinary least-squares slope of the values against their
    integer index [0..n−1], [Σ(x−x̄)(y−ȳ) / Σ(x−x̄)²], and 0 if the
    denominator is 0 or there are fewer than 2 samples. *)
Definition mean (l : list R) : R := fold_right Rplus 0 l / INR (List.length l).

Definition indexed (ys : list R) : list (R * R) :=
  combine (map INR (seq 0 (List.length ys))) ys.

Definition sumOver {A : Type} (f : A -> R) (l : list A) : R :=
  fold_right (fun a acc => f a + acc) 0 l.

Definition olsSlope (ys : list R) : R :=
  let xbar := mean (map fst (indexed ys)) in
  let ybar := mean ys in
  let sxy := sumOver (fun p => (fst p - xbar) * (snd p - ybar)) (indexed ys) in
  let sxx := sumOver (fun p => (fst p - xbar) * (fst p - xbar)) (indexed ys) in
  if (List.length ys <? 2)%nat then 0
  else if Req_dec_T sxx 0 then 0
  else sxy / sxx.

(** A perfectly linear channel: [n] samples [a, a + k, a + 2k, ...]. *)
Definition linearChannel (a k : R) (n : nat) : list R :=
  map (fun i => a + k * INR i) (seq 0 n).

(** ** Definitions used in the statements and proofs *)

(** Finite and non-finite numbers. *)
Definition finite (x : number) : Prop := isFinite x = true.
Definition nonfinite (x : number) : Prop := isFinite x = false.

(** *** Solar position on finite inputs

    The elevation computed by [calculateSolarPosition] from finite
    coordinates and a valid date, as a real number. *)

Definition dayOfYearR (T Y : R) : R := IZR (Int_part ((T - Y) / 86400000)).

Definition gammaR (d : R) : R := 2 * PI * (d - 1) / 365.

Definition declinationR (g : R) : R :=
  0.006918 - 0.399912 * cos g + 0.070257 * sin g - 0.006758 * cos (2 * g) +
  0.000907 * sin (2 * g) - 0.00205 * cos (3 * g) + 0.00029 * sin (3 * g).

Definition eotR (g : R) : R :=
  229.18 * (0.017645 * sin (2 * g) - 0.033827 * cos g - 0.00969 * sin g -
            0.00569 * cos (2 * g)).

Definition hourAngleR (g h m lon : R) : R :=
  ((h * 60 + m + eotR g + lon * 4) / 60 - 12) * 15 * PI / 180.

Definition sinElevationR (lat lon T Y h m : R) : R :=
  let g := gammaR (dayOfYearR T Y) in
  sin (lat * PI / 180) * sin (declinationR g) +
  cos (lat * PI / 180) * cos (declinationR g) * cos (hourAngleR g h m lon).

Definition elevationR (lat lon T Y h m : R) : R :=
  asin (Rmax (-1) (Rmin 1 (sinElevationR lat lon T Y h m))) * (180 / PI).

Definition validDate (d : JSDate) : Prop :=
  exists T Y h m,
    d = {| getTime := Fin T; startOfYear := Fin Y;
           getUTCHours := Fin h; getUTCMinutes := Fin m |}.

(** *** The values of one sample *)

(** The sample values the orchestrator works with: the channel entry at
    the index, or the default when it is missing, [NaN] or 0. *)
Definition temperatureAt (w : WeatherForecastData) (i : nat) : number :=
  orElse (nth_error (temperature_2m w) i) 25.
Definition cloudCoverAt (w : WeatherForecastData) (i : nat) : number :=
  orElse (nth_error (cloud_cover w) i) 0.
Definition baseGHIAt (w : WeatherForecastData) (i : nat) : number :=
  orElse (nth_error (shortwave_radiation w) i) 0.

(** The value [predictedIrradiance] of a sample that is not short-circuited. *)
Definition daytimeIrradiance (w : WeatherForecastData) (i : nat) (elev : number)
    : number :=
  (Math.max 0
     (Math.max 0
        (baseGHIAt w i * calculateCloudImpact (cloudCoverAt w i) (temperatureAt w i) *
         estimateAerosolFactor elev) *
      0.85 * (1 + (-0.004)%R * Math.max 0 (temperatureAt w i - 25))))%js.

(** *** The sums of the trend estimator *)

Definition crossTerm (xm ym : R) (p : R * R) : R := (fst p - xm) * (snd p - ym).
Definition squareTerm (xm : R) (p : R * R) : R := (fst p - xm) * (fst p - xm).

Definition indexedFrom (start : nat) (ys : list R) : list (R * R) :=
  combine (map INR (seq start (List.length ys))) ys.
(** [calculateTrend] on a finite window, as a real number. *)
Definition trendR (zs : list R) : R :=
  let xm := (INR (List.length zs) - 1) / 2 in
  let ym := fold_left Rplus zs 0 / INR (List.length zs) in
  let sxy := sumOver (crossTerm xm ym) (indexedFrom 0 zs) in
  let sxx := sumOver (squareTerm xm) (indexedFrom 0 zs) in
  if (List.length zs <? 2)%nat then 0
  else if Req_dec_T sxx 0 then 0 else sxy / sxx.

(** *** The five trends of [analyzeWeatherTrends] *)

Inductive Channel : Type :=
  | Temperature | CloudCover | WindSpeed | Pressure | Humidity.

(** The array [calculateTrend] is applied to, per trend. *)
Definition channelData (f : EnhancedWeatherForecast) (ch : Channel) : list number :=
  match ch with
  | Temperature => temperature_2m f
  | CloudCover => cloud_cover f
  | WindSpeed => orEmpty (windSpeed f)
  | Pressure => orEmpty (pressure f)
  | Humidity => orEmpty (humidity f)
  end.

(** The field of the forecast a trend is computed from: the two required
    channels are always there, the other three are optional. *)
Definition channelField (f : EnhancedWeatherForecast) (ch : Channel)
    : option (list number) :=
  match ch with
  | Temperature => Some (temperature_2m f)
  | CloudCover => Some (cloud_cover f)
  | WindSpeed => windSpeed f
  | Pressure => pressure f
  | Humidity => humidity f
  end.

Definition trendOf (trends : WeatherTrends) (ch : Channel) : number :=
  match ch with
  | Temperature => tempTrend trends
  | CloudCover => cloudCoverTrend trends
  | WindSpeed => windSpeedTrend trends
  | Pressure => pressureTrend trends
  | Humidity => humidityTrend trends
  end.

(** The argument of [toFixed], per trend. *)
Definition fractionDigits (ch : Channel) : nat :=
  match ch with
  | Temperature | WindSpeed => 3
  | CloudCover | Pressure | Humidity => 2
  end.

Definition zeroTrends : WeatherTrends :=
  {| tempTrend := 0; cloudCoverTrend := 0; windSpeedTrend := 0;
     pressureTrend := 0; humidityTrend := 0 |}.

(** *** Concrete inputs *)

(** 2024-01-01T00:00Z, read in a UTC host: [new Date(2024, 0, 0)] is
    2023-12-31T00:00Z, one day earlier, so the day of the year is 1. *)
Definition newYear2024 (hour : R) : JSDate :=
  {| getTime := Fin (1704067200000 + hour * 3600000);
     startOfYear := Fin 1703980800000;
     getUTCHours := Fin hour;
     getUTCMinutes := Fin 0 |}.

Definition invalidDate : JSDate :=
  {| getTime := NaN; startOfYear := NaN; getUTCHours := NaN; getUTCMinutes := NaN |}.

(** [new Date] on the timestamps of the examples. *)
Definition exampleNewDate (s : string) : JSDate :=
  if String.eqb s "2024-01-01T00:00" then newYear2024 0
  else if String.eqb s "2024-01-01T01:00" then newYear2024 1
  else if String.eqb s "2024-01-01T02:00" then newYear2024 2
  else invalidDate.

(** The examples pass their coordinates as numbers; no string is parsed. *)
Definition noNumeral (s : string) : number := NaN.

Definition northPole : LocationData :=
  {| latitude := CoordNumber 90; longitude := CoordNumber 0 |}.

(** A point of the equator where the sun is on the horizon at
    2024-01-01T00:00Z. *)
Definition sunriseSite : LocationData :=
  {| latitude := CoordNumber 0; longitude := CoordNumber 92.264126515 |}.

(** A point of the equator, 15° further west, where the sun is on the
    horizon one hour later, at 2024-01-01T01:00Z. *)
Definition sunriseSiteWest : LocationData :=
  {| latitude := CoordNumber 0; longitude := CoordNumber 77.264126515 |}.

Definition nowhere : LocationData :=
  {| latitude := CoordNumber NaN; longitude := CoordNumber (-74)%R |}.

Definition oneSample : WeatherForecastData :=
  {| time := ["2024-01-01T00:00"%string];
     temperature_2m := [Fin 25];
     cloud_cover := [Fin 0];
     shortwave_radiation := [Fin 800] |}.

Definition threeSamples : WeatherForecastData :=
  {| time := ["2024-01-01T00:00"; "2024-01-01T01:00"; "2024-01-01T02:00"]%string;
     temperature_2m := [Fin 25; Fin 26; Fin 0];
     cloud_cover := [Fin 0; Fin 40; Fin 95];
     shortwave_radiation := [Fin 800; Fin 0; Fin 120] |}.

(** One sample whose timestamp is not a date: [new Date] gives an invalid
    date, all of whose getters return [NaN]. *)
Definition undatedSample : WeatherForecastData :=
  {| time := ["not a date"%string];
     temperature_2m := [Fin 25];
     cloud_cover := [Fin 0];
     shortwave_radiation := [Fin 800] |}.

(** Three hourly samples whose first cloud-cover entry is [NaN]. *)
Definition nanCloudSamples : WeatherForecastData :=
  {| time := ["2024-01-01T00:00"; "2024-01-01T01:00"; "2024-01-01T02:00"]%string;
     temperature_2m := [Fin 25; Fin 25; Fin 25];
     cloud_cover := [NaN; Fin 0; Fin 0];
     shortwave_radiation := [Fin 800; Fin 800; Fin 800] |}.

Definition emptySeries : EnhancedWeatherForecast :=
  {| base := {| time := []; temperature_2m := []; cloud_cover := [];
                shortwave_radiation := [] |};
     humidity := None; windSpeed := None; windDirection := None;
     pressure := None; precipitation := None |}.

Definition linearTemperatures : EnhancedWeatherForecast :=
  {| base := {| time := [];
                temperature_2m := map Fin (linearChannel 10 0.5 24);
                cloud_cover := [];
                shortwave_radiation := [] |};
     humidity := None; windSpeed := None; windDirection := None;
     pressure := None; precipitation := None |}.

(** ** Further functions of the services and of their callers *)

(** [Math.max(...list)] and [Math.min(...list)]: [-Infinity] and
    [+Infinity] on the empty list, [NaN] as soon as one entry is [NaN]. *)
Definition maxOfList (l : list number) : number := fold_left Math.max l NInf.
Definition minOfList (l : list number) : number := fold_left Math.min l PInf.

(** [Math.round]: the nearest integer, ties towards [+Infinity]. *)
Definition mathRound (x : number) : number :=
  match x with
  | Fin r => Fin (IZR (Int_part (r + / 2)))
  | _ => x
  end.

(** [channel?.[0]] for an optional channel. *)
Definition firstOf (channel : option (list number)) : option number :=
  match channel with
  | Some data => nth_error data 0
  | None => None
  end.

Record WeatherAlerts : Type := {
  cloudCoverAlert : bool;
  temperatureAlert : bool;
  windAlert : bool;
  pressureAlert : bool;
  precipitationAlert : bool
}.

Definition generateWeatherAlerts (forecastData : EnhancedWeatherForecast)
    (trends : WeatherTrends) : WeatherAlerts :=
  (let currentCloud := orElse (nth_error (cloud_cover forecastData) 0) 0 in
   let currentTemp := orElse (nth_error (temperature_2m forecastData) 0) 20 in
   let currentWind := orElse (firstOf (windSpeed forecastData)) 0 in
   let currentPrecip := orElse (firstOf (precipitation forecastData)) 0 in
   let next6hCloud := slice0 6 (cloud_cover forecastData) in
   let cloudVariability :=
     if (1 <? List.length next6hCloud)%nat
     then maxOfList next6hCloud - minOfList next6hCloud
     else 0 in
   {| cloudCoverAlert := (currentCloud >? 80) || (cloudVariability >? 50);
      temperatureAlert := (currentTemp <? -10) || (currentTemp >? 40);
      windAlert := currentWind >? 20;
      pressureAlert := Math.abs (pressureTrend trends) >? 1.5;
      precipitationAlert := currentPrecip >? 5 |})%js.

Definition calculateSolarPotential (weather : EnhancedWeatherForecast) : number :=
  (if (List.length (shortwave_radiation weather) =? 0)%nat then 0
   else
     let daytimeRadiation := filter (fun r => r >? 0) (shortwave_radiation weather) in
     if (List.length daytimeRadiation =? 0)%nat then 0
     else
       let avgRadiation :=
         reduce (fun a b => a + b) (Fin 0) daytimeRadiation /
         ofNat (List.length daytimeRadiation) in
       let avgCloud :=
         reduce (fun a b => a + b) (Fin 0) (cloud_cover weather) /
         ofNat (List.length (cloud_cover weather)) in
       let cloudFactor := (100 - avgCloud) / 100 in
       let radiationFactor := Math.min 1 (avgRadiation / 800) in
       mathRound (cloudFactor * radiationFactor * 100))%js.

(** The result of the validators of [InputSection]. *)
Record Validation : Type := {
  valid : bool;
  message : string
}.

(** [Number.isFinite] is [isFinite]. *)
Definition validateCoordinates (latitude longitude : number) : Validation :=
  (if (negb (isFinite latitude) || negb (isFinite longitude))%bool then
     {| valid := false; message := "Invalid coordinates received" |}
   else if ((latitude <? -90) || (latitude >? 90))%bool then
     {| valid := false; message := "Latitude must be between -90 and 90" |}
   else if ((longitude <? -180) || (longitude >? 180))%bool then
     {| valid := false; message := "Longitude must be between -180 and 180" |}
   else {| valid := true; message := EmptyString |})%js.

(** A finite forecast in which only the three required channels and the
    precipitation are given. *)
Definition plainForecast (temps clouds radiation : list R)
    (precip : option (list number)) : EnhancedWeatherForecast :=
  {| base := {| time := [];
                temperature_2m := map Fin temps;
                cloud_cover := map Fin clouds;
                shortwave_radiation := map Fin radiation |};
     humidity := None; windSpeed := None; windDirection := None;
     pressure := None; precipitation := precip |}.

(** A forecast with a single temperature and a pressure channel falling by
    5 hPa per hour. *)
Definition fallingPressure : EnhancedWeatherForecast :=
  {| base := {| time := ["2024-01-01T00:00"%string];
                temperature_2m := [Fin 20];
                cloud_cover := [Fin 30];
                shortwave_radiation := [Fin 0] |};
     humidity := None; windSpeed := None; windDirection := None;
     pressure := Some (map Fin (linearChannel 1013 (-5) 24));
     precipitation := None |}.

(** A forecast of 24 hours at a constant 20 °C, with a pressure channel
    falling by 5 hPa per hour. *)
Definition steadyFallingPressure : EnhancedWeatherForecast :=
  {| base := {| time := [];
                temperature_2m := map Fin (linearChannel 20 0 24);
                cloud_cover := [];
                shortwave_radiation := [] |};
     humidity := None; windSpeed := None; windDirection := None;
     pressure := Some (map Fin (linearChannel 1013 (-5) 24));
     precipitation := None |}.

(** The sum of squared deviations from [mu], as [reduce] accumulates it. *)
Definition sqDev (mu : R) (l : list R) (acc : R) : R :=
  fold_left (fun s t => s + (t - mu) * (t - mu)) l acc.

(** [r > 0] on reals, as the filter of [calculateSolarPotential] decides it. *)
Definition positiveR (r : R) : bool := if Rlt_dec 0 r then true else false.

(** ** Arithmetic of finite numbers *)

Lemma lt_Fin_true (a b : R) : a < b -> (Fin a <? Fin b)%js = true.
Proof. intros H; unfold lt; destruct (Rlt_dec a b); [reflexivity | contradiction]. Qed.

Lemma lt_Fin_false (a b : R) : b <= a -> (Fin a <? Fin b)%js = false.
Proof. intros H; unfold lt; destruct (Rlt_dec a b); [lra | reflexivity]. Qed.

Lemma lt_Fin_inv (a b : R) : (Fin a <? Fin b)%js = true -> a < b.
Proof. unfold lt; destruct (Rlt_dec a b); [trivial | discriminate]. Qed.

Lemma lt_Fin_inv_false (a b : R) : (Fin a <? Fin b)%js = false -> b <= a.
Proof. unfold lt; destruct (Rlt_dec a b); [discriminate | lra]. Qed.

Lemma le_Fin_true (a b : R) : a <= b -> (Fin a <=? Fin b)%js = true.
Proof. intros H; unfold le; destruct (Rle_dec a b); [reflexivity | contradiction]. Qed.

Lemma le_Fin_false (a b : R) : b < a -> (Fin a <=? Fin b)%js = false.
Proof. intros H; unfold le; destruct (Rle_dec a b); [lra | reflexivity]. Qed.

Lemma le_Fin_inv (a b : R) : (Fin a <=? Fin b)%js = true -> a <= b.
Proof. unfold le; destruct (Rle_dec a b); [trivial | discriminate]. Qed.

Lemma div_Fin (a b : R) : b <> 0 -> (Fin a / Fin b)%js = Fin (a / b).
Proof. intros H; unfold div; destruct (Req_dec_T b 0); [contradiction | reflexivity]. Qed.

Lemma max_Fin (a b : R) : Math.max (Fin a) (Fin b) = Fin (Rmax a b).
Proof.
  unfold Math.max, lt, Rmax.
  destruct (Rlt_dec a b), (Rle_dec a b); try reflexivity; try lra.
  f_equal; lra.
Qed.

Lemma min_Fin (a b : R) : Math.min (Fin a) (Fin b) = Fin (Rmin a b).
Proof.
  unfold Math.min, lt, Rmin.
  destruct (Rlt_dec b a), (Rle_dec a b); try reflexivity; lra.
Qed.

Lemma asin_Fin (r : R) : -1 <= r <= 1 -> Math.asin (Fin r) = Fin (asin r).
Proof.
  intros [H1 H2]; unfold Math.asin.
  destruct (Rle_dec (-1) r); [| contradiction].
  destruct (Rle_dec r 1); [reflexivity | contradiction].
Qed.

Lemma pow_Fin_pos (b e : R) : 0 < b -> e <> 0 -> Math.pow (Fin b) e = Fin (Rpower b e).
Proof.
  intros Hb He; unfold Math.pow.
  destruct (Req_dec_T e 0); [contradiction |].
  destruct (Rlt_dec 0 b); [reflexivity | contradiction].
Qed.

Lemma add_Fin (a b : R) : (Fin a + Fin b)%js = Fin (a + b).
Proof. reflexivity. Qed.

Lemma sub_Fin (a b : R) : (Fin a - Fin b)%js = Fin (a - b).
Proof. reflexivity. Qed.

Lemma mul_Fin (a b : R) : (Fin a * Fin b)%js = Fin (a * b).
Proof. reflexivity. Qed.

Lemma abs_Fin (a : R) : Math.abs (Fin a) = Fin (Rabs a).
Proof. reflexivity. Qed.

Create Rewrite HintDb fin.
#[export] Hint Rewrite add_Fin sub_Fin mul_Fin abs_Fin max_Fin min_Fin : fin.

(** Evaluate the arithmetic of finite numbers, leaving real terms. *)
Ltac fin_norm := autorewrite with fin.

Lemma Int_part_IZR (z : Z) : Int_part (IZR z) = z.
Proof. symmetry; apply Int_part_spec; lra. Qed.

Lemma pow_Fin_square (b : R) : Math.pow (Fin b) 2 = Fin (b * b).
Proof.
  unfold Math.pow.
  destruct (Req_dec_T 2 0) as [E | _]; [lra |].
  destruct (Rlt_dec 0 b) as [Hb | Hb].
  - f_equal. replace 2 with (INR 2) by (simpl; lra).
    rewrite Rpower_pow by assumption. simpl; ring.
  - destruct (Req_dec_T b 0) as [-> | Hb0].
    + destruct (Rlt_dec 0 2); [f_equal; ring | lra].
    + rewrite (Int_part_IZR 2).
      destruct (Req_dec_T 2 2) as [_ | N]; [| contradiction].
      f_equal. simpl. ring.
Qed.

Lemma sub_neg_coefficient (a c k : R) (x : number) :
  c = - k -> 0 < k -> (Fin a - Fin c * x)%js = (Fin a + Fin k * x)%js.
Proof.
  intros -> Hk. destruct x as [| s | r]; simpl.
  - reflexivity.
  - destruct (Req_dec_T (- k) 0) as [E | _]; [lra |].
    destruct (Req_dec_T k 0) as [E | _]; [lra |].
    unfold Rneg.
    destruct (Rlt_dec (- k) 0); [| lra].
    destruct (Rlt_dec k 0); [lra |].
    destruct s; reflexivity.
  - f_equal. lra.
Qed.

Lemma add_neg_coefficient (a c k : R) (x : number) :
  c = - k -> 0 < k -> (Fin a + Fin c * x)%js = (Fin a - Fin k * x)%js.
Proof.
  intros -> Hk. destruct x as [| s | r]; simpl.
  - reflexivity.
  - destruct (Req_dec_T (- k) 0) as [E | _]; [lra |].
    destruct (Req_dec_T k 0) as [E | _]; [lra |].
    unfold Rneg.
    destruct (Rlt_dec (- k) 0); [| lra].
    destruct (Rlt_dec k 0); [lra |].
    destruct s; reflexivity.
  - f_equal. lra.
Qed.

(** ** Lists processed with their index *)

Lemma mapFrom_length {A B : Type} (f : nat -> A -> B) (l : list A) (start : nat) :
  List.length (mapFrom f start l) = List.length l.
Proof.
  revert start; induction l as [| x rest IH]; intros start; simpl;
    [reflexivity | now rewrite IH].
Qed.

Lemma mapFrom_nth_error {A B : Type} (f : nat -> A -> B) (l : list A) :
  forall start i,
    nth_error (mapFrom f start l) i = option_map (f (start + i)%nat) (nth_error l i).
Proof.
  induction l as [| x rest IH]; intros start [| i]; simpl; try reflexivity.
  - now rewrite Nat.add_0_r.
  - rewrite IH. now replace (S start + i)%nat with (start + S i)%nat by lia.
Qed.

Lemma mapi_nth_error {A B : Type} (f : nat -> A -> B) (l : list A) (i : nat) :
  nth_error (mapi f l) i = option_map (f i) (nth_error l i).
Proof. unfold mapi; now rewrite mapFrom_nth_error. Qed.

Lemma mapFrom_project {A B : Type} (f : nat -> A -> B) (g : B -> A) (l : list A) :
  (forall i x, g (f i x) = x) ->
  forall start, map g (mapFrom f start l) = l.
Proof.
  intros Hg; induction l as [| x rest IH]; intros start; simpl;
    [reflexivity | now rewrite Hg, IH].
Qed.

Lemma mapFrom_Forall {A B : Type} (f : nat -> A -> B) (P : B -> Prop) (l : list A) :
  forall start,
    (forall i x, nth_error l i = Some x -> P (f (start + i)%nat x)) ->
    Forall P (mapFrom f start l).
Proof.
  induction l as [| x rest IH]; intros start H; simpl; constructor.
  - specialize (H 0%nat x eq_refl). now rewrite Nat.add_0_r in H.
  - apply IH. intros i y Hy.
    replace (S start + i)%nat with (start + S i)%nat by lia.
    now apply H.
Qed.

(** ** The computed elevation *)

Lemma clamp_bounds (x : R) : -1 <= Rmax (-1) (Rmin 1 x) <= 1.
Proof.
  split; [apply Rmax_l |].
  apply Rmax_lub; [lra | apply Rmin_l].
Qed.

Lemma elevation_Fin (lat lon T Y h m : R) :
  elevation
    (calculateSolarPosition (Fin lat) (Fin lon)
       {| getTime := Fin T; startOfYear := Fin Y;
          getUTCHours := Fin h; getUTCMinutes := Fin m |})
  = Fin (elevationR lat lon T Y h m).
Proof.
  unfold calculateSolarPosition.
  cbv beta zeta iota delta [elevation getTime startOfYear getUTCHours getUTCMinutes
                            Math.PI Math.floor Math.sin Math.cos sub add mul neg].
  assert (Hpi : PI <> 0) by (pose proof PI_RGT_0; lra).
  repeat (rewrite div_Fin by lra);
    cbv beta iota delta [Math.floor Math.sin Math.cos add mul].
  rewrite min_Fin, max_Fin, asin_Fin by apply clamp_bounds.
  reflexivity.
Qed.

(** ** Length and order of the forecast *)

Section ForecastShape.

Variable parseFloat : string -> number.
Variable newDate : string -> JSDate.

Lemma forecastSample_time (lat lon : number) (w : WeatherForecastData)
    (t : string) (i : nat) :
  ForecastPoint.time (forecastSample newDate lat lon w t i) = t.
Proof.
  unfold forecastSample.
  destruct (lt (elevation (calculateSolarPosition lat lon (newDate t))) 0);
    reflexivity.
Qed.

Lemma generateSolarForecast_nth (location : LocationData)
    (historicalData : list SolarDataPoint) (w : WeatherForecastData)
    (i : nat) (t : string) :
  nth_error (time w) i = Some t ->
  exists forecast,
    generateSolarForecast parseFloat newDate location historicalData w
      = Resolved forecast /\
    nth_error forecast i =
      Some (forecastSample newDate (coordinate parseFloat (latitude location))
              (coordinate parseFloat (longitude location)) w t i).
Proof.
  intros Ht. eexists; split; [reflexivity |].
  rewrite mapi_nth_error, Ht. reflexivity.
Qed.

(** C9. [generateSolarForecast] always resolves, with exactly one
    [ForecastPoint] per entry of the input [time] array, in the same
    positional order: the times of the output points, read in order, are
    the input [time] array itself. *)
Theorem generateSolarForecast_one_point_per_sample :
  forall (location : LocationData) (historicalData : list SolarDataPoint)
         (w : WeatherForecastData),
  exists forecast,
    generateSolarForecast parseFloat newDate location historicalData w
      = Resolved forecast /\
    List.length forecast = List.length (time w) /\
    map ForecastPoint.time forecast = time w.
Proof.
  intros location historicalData w.
  eexists; split; [reflexivity |]. split.
  - apply mapFrom_length.
  - apply mapFrom_project with (g := ForecastPoint.time).
    intros i x. apply forecastSample_time.
Qed.

(** C3. A sample whose computed solar elevation is strictly negative yields
    exactly [predictedIrradiance = 0] and [confidence = 0.95], whatever the
    weather channels hold at that index (they are not consulted). *)
Theorem night_sample_is_zero_with_confidence_095 :
  forall (location : LocationData) (historicalData : list SolarDataPoint)
         (w : WeatherForecastData) (i : nat) (t : string),
    nth_error (time w) i = Some t ->
    (elevation
       (calculateSolarPosition (coordinate parseFloat (latitude location))
          (coordinate parseFloat (longitude location)) (newDate t)) <? 0)%js = true ->
    exists forecast,
      generateSolarForecast parseFloat newDate location historicalData w
        = Resolved forecast /\
      nth_error forecast i = Some (ForecastPoint.mk t (Fin 0) (Fin 0.95)).
Proof.
  intros location historicalData w i t Ht Hnight.
  destruct (generateSolarForecast_nth location historicalData w i t Ht)
    as [forecast [Hres Hnth]].
  exists forecast; split; [exact Hres |].
  rewrite Hnth. unfold forecastSample. rewrite Hnight. reflexivity.
Qed.

End ForecastShape.

(** ** Clear-sky irradiance *)

(** C6. [calculateClearSkyIrradiance] is the clear-sky formula of the
    specification: 0 when the elevation is at most 0, and otherwise
    [max(0, 910.6·exp(0.6797 + 0.00639·airmass)·max(0, cos(zenithRad)))]
    with the Kasten-Young airmass; the airmass enters the exponent with the
    coefficient [+0.00639]. *)
Theorem calculateClearSkyIrradiance_formula :
  forall elevation zenithAngle : number,
    calculateClearSkyIrradiance elevation zenithAngle
    = clearSkySpec elevation zenithAngle.
Proof.
  intros e z. unfold calculateClearSkyIrradiance, clearSkySpec.
  destruct (e <=? 0)%js; [reflexivity |].
  cbv zeta.
  rewrite (sub_neg_coefficient _ _ 0.00639) by lra.
  reflexivity.
Qed.

(** ** Degenerate series *)

(** C8. On a series with fewer than two samples every trend slope is 0, and
    on an empty series the forecast quality is exactly 0.5: the analyzer
    returns these fallbacks, it does not fail. *)
Theorem analyzer_fallbacks_on_short_series :
  forall forecastData : EnhancedWeatherForecast,
    (List.length (temperature_2m forecastData) < 2)%nat ->
    analyzeWeatherTrends forecastData = zeroTrends /\
    (temperature_2m forecastData = [] ->
     calculateForecastQuality forecastData = Fin 0.5).
Proof.
  intros f Hshort. split.
  - unfold analyzeWeatherTrends.
    destruct (Nat.ltb_spec (Nat.min 24 (List.length (temperature_2m f))) 2);
      [reflexivity | lia].
  - intros Hempty. unfold calculateForecastQuality. rewrite Hempty. reflexivity.
Qed.

(** C8 on the empty series. *)
Lemma analyzer_fallbacks_on_empty_series :
  analyzeWeatherTrends emptySeries = zeroTrends /\
  calculateForecastQuality emptySeries = Fin 0.5.
Proof.
  destruct (analyzer_fallbacks_on_short_series emptySeries) as [H1 H2].
  - simpl; lia.
  - split; [exact H1 | apply H2; reflexivity].
Defined.

(** ** The steps of a daytime sample on finite inputs *)

Lemma finite_Fin (x : number) : finite x -> exists r, x = Fin r.
Proof. destruct x; unfold finite; simpl; try discriminate. now eexists. Qed.

Lemma orElse_Fin (r d : R) :
  orElse (Some (Fin r)) (Fin d) = Fin (if Req_dec_T r 0 then d else r).
Proof. unfold orElse, truthy. destruct (Req_dec_T r 0); reflexivity. Qed.

Lemma orElse_zero (r : R) : orElse (Some (Fin r)) (Fin 0) = Fin r.
Proof. rewrite orElse_Fin. destruct (Req_dec_T r 0); [now subst | reflexivity]. Qed.

Lemma orElse_finite (l : list number) (i : nat) (d : R) :
  Forall finite l -> exists r, orElse (nth_error l i) (Fin d) = Fin r.
Proof.
  intros Hl. destruct (nth_error l i) as [x |] eqn:E; [| now exists d].
  apply nth_error_In in E. rewrite Forall_forall in Hl.
  destruct (finite_Fin x (Hl x E)) as [r ->].
  rewrite orElse_Fin. now eexists.
Qed.

Lemma tempFactor_Fin (T : R) :
  Math.max 0.8 (Math.min 1.0 ((Fin T + 5) / 45))
  = Fin (Rmax 0.8 (Rmin 1.0 ((T + 5) / 45))).
Proof. rewrite add_Fin, div_Fin by lra. now rewrite min_Fin, max_Fin. Qed.

(** The cloud impact of a finite sample is a finite factor in [[0.1, 1]]. *)
Lemma calculateCloudImpact_range (c T : R) :
  exists r, calculateCloudImpact (Fin c) (Fin T) = Fin r /\ 0.1 <= r <= 1.
Proof.
  unfold calculateCloudImpact, gt.
  destruct (Fin c <? 10)%js eqn:E1; [exists 0.95; split; [reflexivity | lra] |].
  destruct (90 <? Fin c)%js eqn:E2; [exists 0.15; split; [reflexivity | lra] |].
  apply lt_Fin_inv_false in E1, E2.
  cbv zeta. rewrite tempFactor_Fin, div_Fin by lra.
  rewrite pow_Fin_pos by lra. fin_norm.
  eexists; split; [reflexivity |]. split; [apply Rmax_l |].
  apply Rmax_lub; [lra |].
  assert (Hp : 0 < Rpower (c / 100) 1.3) by (unfold Rpower; apply exp_pos).
  assert (Hf : 0.8 <= Rmax 0.8 (Rmin 1.0 ((T + 5) / 45))) by apply Rmax_l.
  nra.
Qed.

(** Below 31 °C the temperature proxy is at its floor 0.8, so the cloud
    impact does not depend on the temperature there. *)
Lemma calculateCloudImpact_cool (x : number) (T1 T2 : R) :
  T1 <= 31 -> T2 <= 31 ->
  calculateCloudImpact x (Fin T1) = calculateCloudImpact x (Fin T2).
Proof.
  intros H1 H2. unfold calculateCloudImpact. cbv zeta.
  rewrite !tempFactor_Fin.
  assert (F : forall T, T <= 31 -> Rmax 0.8 (Rmin 1.0 ((T + 5) / 45)) = 0.8).
  { intros T HT. apply Rmax_left.
    apply Rle_trans with ((T + 5) / 45); [apply Rmin_r | lra]. }
  now rewrite (F T1 H1), (F T2 H2).
Qed.

Lemma estimateAerosolFactor_range (e : R) :
  exists a, estimateAerosolFactor (Fin e) = Fin a /\ 0 <= a <= 0.95.
Proof.
  unfold estimateAerosolFactor.
  repeat match goal with
         | |- context [(?x <? ?y)%js] => destruct (x <? y)%js
         end;
    eexists; (split; [reflexivity | lra]).
Qed.

(** The code's loss factor [1 + (-0.004)·d] is [1 - 0.004·d]. *)
Lemma tempLossFactor_Fin (d : R) :
  (1 + temperatureCoefficient * Fin d)%js = (1 - 0.004 * Fin d)%js.
Proof. unfold temperatureCoefficient. fin_norm. f_equal. lra. Qed.

Lemma predictedIrradiance_nonneg (b ci af T : R) :
  exists p,
    Math.max 0
      (Math.max 0 (Fin b * Fin ci * Fin af) * systemEfficiency *
       (1 + temperatureCoefficient * Math.max 0 (Fin T - 25)))%js = Fin p /\
    0 <= p.
Proof.
  unfold systemEfficiency, temperatureCoefficient. fin_norm.
  eexists; split; [reflexivity | apply Rmax_l].
Qed.

Lemma cloud_neighbour_finite (l : list number) (j : nat) :
  Forall finite l -> (j < List.length l)%nat ->
  exists r, toNumber (nth_error l j) = Fin r.
Proof.
  intros Hl Hj. destruct (nth_error l j) as [x |] eqn:E.
  - apply nth_error_In in E. rewrite Forall_forall in Hl.
    destruct (finite_Fin x (Hl x E)) as [r ->]. now exists r.
  - apply nth_error_None in E. lia.
Qed.

(** The confidence of a sample at or above the horizon, on a series with
    finite cloud cover: a finite number built from three finite factors. *)
Lemma predictConfidence_day (x : number) (e : R) (T : number) (i : nat)
    (w : WeatherForecastData) :
  0 <= e -> Forall finite (cloud_cover w) ->
  exists cc tc,
    predictConfidence x (Fin e) T i w
      = Fin (Rmax 0.1 (cc * Rmin 1 (e / 80) * tc)) /\
    cc <= 1 /\ (tc = 0.7 \/ tc = 0.9).
Proof.
  intros He Hw. unfold predictConfidence.
  rewrite lt_Fin_false by lra. cbv zeta.
  assert (Hv : exists v,
    (if ((0 <? Z.of_nat i)%Z &&
         (Z.of_nat i <? Z.of_nat (List.length (cloud_cover w)) - 1)%Z)%bool
     then (Math.abs (toNumber (nth_error (cloud_cover w) (i - 1)) -
                     toNumber (nth_error (cloud_cover w) (i + 1))) / 100)%js
     else Fin 0) = Fin v /\ 0 <= v).
  { destruct ((0 <? Z.of_nat i)%Z &&
              (Z.of_nat i <? Z.of_nat (List.length (cloud_cover w)) - 1)%Z)%bool
      eqn:G; [| exists 0; split; [reflexivity | lra]].
    apply andb_prop in G. destruct G as [G1 G2].
    apply Z.ltb_lt in G1, G2.
    destruct (cloud_neighbour_finite _ (i - 1) Hw) as [p ->]; [lia |].
    destruct (cloud_neighbour_finite _ (i + 1) Hw) as [q ->]; [lia |].
    fin_norm. rewrite div_Fin by lra.
    eexists; split; [reflexivity |].
    pose proof (Rabs_pos (p - q)). lra. }
  destruct Hv as [v [-> Hv]].
  rewrite div_Fin by lra.
  match goal with
  | |- context [if ?b then 0.7 else 0.9] => destruct b
  end; fin_norm; eexists (1 - v * 0.4), _;
    (split; [reflexivity | split; [lra | auto]]).
Qed.

Lemma confidence_product_range (cc e tc : R) :
  0 <= e -> cc <= 1 -> (tc = 0.7 \/ tc = 0.9) ->
  0.1 <= Rmax 0.1 (cc * Rmin 1 (e / 80) * tc) <= 1.
Proof.
  intros He Hcc Htc. split; [apply Rmax_l |].
  apply Rmax_lub; [lra |].
  assert (H0 : 0 <= Rmin 1 (e / 80)) by (apply Rmin_glb; lra).
  assert (H1 : Rmin 1 (e / 80) <= 1) by apply Rmin_l.
  destruct (Rle_dec 0 cc); destruct Htc; subst tc; nra.
Qed.

(** ** Propagation of non-finite values *)

Lemma add_NaN_r (x : number) : (x + NaN)%js = NaN.
Proof. destruct x; reflexivity. Qed.

Lemma mul_NaN_r (x : number) : (x * NaN)%js = NaN.
Proof. destruct x; reflexivity. Qed.

Lemma nonfinite_add_r (x y : number) : nonfinite y -> nonfinite (x + y)%js.
Proof.
  unfold nonfinite. destruct x as [| s | a], y as [| t | b]; simpl;
    try discriminate; try reflexivity.
  destruct (Bool.eqb s t); reflexivity.
Qed.

Lemma nonfinite_sub_Fin (x : number) (c : R) : nonfinite x -> nonfinite (x - Fin c)%js.
Proof. unfold nonfinite. destruct x; simpl; try discriminate; reflexivity. Qed.

Lemma nonfinite_mul_Fin (x : number) (c : R) :
  nonfinite x -> nonfinite (x * Fin c)%js.
Proof.
  unfold nonfinite. destruct x; simpl; try discriminate; try reflexivity.
  destruct (Req_dec_T c 0); reflexivity.
Qed.

Lemma nonfinite_div_Fin (x : number) (c : R) : nonfinite x -> nonfinite (x / Fin c)%js.
Proof. unfold nonfinite. destruct x; simpl; try discriminate; reflexivity. Qed.

Lemma sin_nonfinite (x : number) : nonfinite x -> Math.sin x = NaN.
Proof. unfold nonfinite. destruct x; simpl; try discriminate; reflexivity. Qed.

Lemma cos_nonfinite (x : number) : nonfinite x -> Math.cos x = NaN.
Proof. unfold nonfinite. destruct x; simpl; try discriminate; reflexivity. Qed.

(** With a non-finite latitude or longitude the computed elevation is
    [NaN], whatever the date. *)
Lemma elevation_nonfinite (lat lon : number) (date : JSDate) :
  nonfinite lat \/ nonfinite lon ->
  elevation (calculateSolarPosition lat lon date) = NaN.
Proof.
  intros H. unfold calculateSolarPosition. cbv zeta. cbn [elevation].
  unfold Math.PI.
  match goal with
  | |- (Math.asin (Math.max _ (Math.min _ ?s)) * _)%js = _ =>
      assert (Hs : s = NaN); [| rewrite Hs; reflexivity]
  end.
  destruct H as [Hlat | Hlon].
  - rewrite (sin_nonfinite (lat * Fin PI / 180)%js), (cos_nonfinite (lat * Fin PI / 180)%js)
      by (apply nonfinite_div_Fin, nonfinite_mul_Fin, Hlat).
    reflexivity.
  - match goal with
    | |- (_ + _ * Math.cos ?h)%js = _ =>
        rewrite (cos_nonfinite h); [now rewrite mul_NaN_r, add_NaN_r |]
    end.
    apply nonfinite_div_Fin, nonfinite_mul_Fin, nonfinite_mul_Fin,
      nonfinite_sub_Fin, nonfinite_div_Fin, nonfinite_add_r, nonfinite_mul_Fin, Hlon.
Qed.

Lemma predictConfidence_NaN (x T : number) (i : nat) (w : WeatherForecastData) :
  predictConfidence x NaN T i w = NaN.
Proof.
  unfold predictConfidence. cbn [lt div Math.min]. cbv zeta.
  now rewrite mul_NaN_r.
Qed.

Lemma le_0_not_lt (x : number) : (0 <=? x)%js = true -> (x <? 0)%js = false.
Proof.
  destruct x as [| s | r]; simpl; try discriminate.
  - now destruct s.
  - destruct (Rle_dec 0 r), (Rlt_dec r 0); try reflexivity; try discriminate; lra.
Qed.

(** ** The forecast of one sample *)

Section ForecastSamples.

Variable parseFloat : string -> number.
Variable newDate : string -> JSDate.

Lemma forecastSample_day (lat lon : number) (w : WeatherForecastData)
    (t : string) (i : nat) :
  let elev := elevation (calculateSolarPosition lat lon (newDate t)) in
  (elev <? 0)%js = false ->
  forecastSample newDate lat lon w t i
  = ForecastPoint.mk t (daytimeIrradiance w i elev)
      (predictConfidence (cloudCoverAt w i) elev (temperatureAt w i) i w).
Proof.
  intros elev H. unfold forecastSample. fold elev. rewrite H. reflexivity.
Qed.

(** C1 (as amended). The orchestrator has no coordinate check: with a
    non-finite latitude or longitude the call still resolves, with one
    point per input sample, and every point carries confidence [NaN]. *)
Theorem nonfinite_coordinates_are_not_rejected :
  forall (location : LocationData) (historicalData : list SolarDataPoint)
         (w : WeatherForecastData),
    nonfinite (coordinate parseFloat (latitude location)) \/
    nonfinite (coordinate parseFloat (longitude location)) ->
    exists forecast,
      generateSolarForecast parseFloat newDate location historicalData w
        = Resolved forecast /\
      List.length forecast = List.length (time w) /\
      Forall (fun p => ForecastPoint.confidence p = NaN) forecast.
Proof.
  intros location historicalData w H.
  eexists; split; [reflexivity |]. split; [apply mapFrom_length |].
  apply mapFrom_Forall. intros i t _.
  rewrite forecastSample_day; rewrite elevation_nonfinite by exact H;
    [| reflexivity].
  apply predictConfidence_NaN.
Qed.

Lemma daytimeIrradiance_formula (w : WeatherForecastData) (i : nat) (elev : number) :
  daytimeIrradiance w i elev =
    irradianceFormula (baseGHIAt w i)
      (calculateCloudImpact (cloudCoverAt w i) (temperatureAt w i))
      (estimateAerosolFactor elev) (temperatureAt w i).
Proof.
  unfold daytimeIrradiance, irradianceFormula.
  now rewrite (add_neg_coefficient 1 (-0.004) 0.004) by lra.
Qed.

(** C4. For every daytime sample (computed elevation at least 0) the
    predicted irradiance is
    [max(0, max(0, b · cloudImpact · aerosolFactor) · 0.85 ·
    (1 − 0.004·max(0, T − 25)))], where [b], the cloud cover and [T] are
    the sample's values as the orchestrator reads them, and, when the
    series holds finite entries [b], [c], [T] at the sample's index, these
    observed entries themselves. The base is the observed shortwave
    radiation; the clear-sky irradiance does not occur in the value. *)
Theorem daytime_irradiance_from_observed_radiation :
  forall (location : LocationData) (historicalData : list SolarDataPoint)
         (w : WeatherForecastData) (i : nat) (t : string),
    let elev :=
      elevation
        (calculateSolarPosition (coordinate parseFloat (latitude location))
           (coordinate parseFloat (longitude location)) (newDate t)) in
    nth_error (time w) i = Some t ->
    (0 <=? elev)%js = true ->
    exists forecast p,
      generateSolarForecast parseFloat newDate location historicalData w
        = Resolved forecast /\
      nth_error forecast i = Some p /\
      ForecastPoint.predictedIrradiance p =
        irradianceFormula (baseGHIAt w i)
          (calculateCloudImpact (cloudCoverAt w i) (temperatureAt w i))
          (estimateAerosolFactor elev) (temperatureAt w i) /\
      forall b c T : R,
        nth_error (shortwave_radiation w) i = Some (Fin b) ->
        nth_error (cloud_cover w) i = Some (Fin c) ->
        nth_error (temperature_2m w) i = Some (Fin T) ->
        ForecastPoint.predictedIrradiance p =
          irradianceFormula (Fin b) (calculateCloudImpact (Fin c) (Fin T))
            (estimateAerosolFactor elev) (Fin T).
Proof.
  intros location historicalData w i t elev Ht Hday.
  destruct (generateSolarForecast_nth parseFloat newDate location historicalData
              w i t Ht) as [forecast [Hres Hnth]].
  exists forecast; eexists; split; [exact Hres |]. split; [exact Hnth |].
  rewrite forecastSample_day by (apply le_0_not_lt, Hday).
  cbn [ForecastPoint.predictedIrradiance]. fold elev.
  rewrite daytimeIrradiance_formula. split; [reflexivity |].
  intros b c T Hb Hc HT.
  unfold baseGHIAt, cloudCoverAt, temperatureAt.
  rewrite Hb, Hc, HT, !orElse_zero, orElse_Fin.
  destruct (Req_dec_T T 0) as [-> | HT0]; [| reflexivity].
  rewrite (calculateCloudImpact_cool (Fin c) 25 0) by lra.
  unfold irradianceFormula. rewrite !sub_Fin, !max_Fin.
  rewrite (Rmax_left 0 (25 - 25)), (Rmax_left 0 (0 - 25)) by lra.
  reflexivity.
Qed.



End ForecastSamples.

(** ** The sun on the concrete inputs *)

Lemma dayOfYear_newYear2024 (hour : R) :
  0 <= hour < 24 ->
  dayOfYearR (1704067200000 + hour * 3600000) 1703980800000 = 1.
Proof.
  intros H. unfold dayOfYearR. f_equal. symmetry. apply Int_part_spec. lra.
Qed.

Lemma gammaR_1 : gammaR 1 = 0.
Proof. unfold gammaR. lra. Qed.

Lemma declinationR_0 : declinationR 0 = -0.401802.
Proof.
  unfold declinationR.
  replace (2 * 0) with 0 by lra. replace (3 * 0) with 0 by lra.
  rewrite cos_0, sin_0. lra.
Qed.

Lemma eotR_0 : eotR 0 = -9.05650606.
Proof.
  unfold eotR. replace (2 * 0) with 0 by lra.
  rewrite cos_0, sin_0. lra.
Qed.

(** At the north pole on 1 January the sun is 0.401802 rad below the horizon. *)
Lemma elevationR_northPole :
  elevationR 90 0 (1704067200000 + 0 * 3600000) 1703980800000 0 0
  = -0.401802 * (180 / PI).
Proof.
  unfold elevationR, sinElevationR.
  rewrite dayOfYear_newYear2024, gammaR_1, declinationR_0 by lra. cbv zeta.
  replace (90 * PI / 180) with (PI / 2) by lra.
  rewrite sin_PI2, cos_PI2.
  replace (1 * sin (-0.401802) + 0 * cos (-0.401802) * cos (hourAngleR 0 0 0 0))
    with (sin (-0.401802)) by lra.
  pose proof (SIN_bound (-0.401802)) as [Hlo Hhi].
  rewrite Rmin_right, Rmax_right by (try rewrite Rmin_right; lra).
  rewrite asin_sin; [reflexivity |].
  pose proof PI2_1. lra.
Qed.

(** At [sunriseSite] the elevation at 2024-01-01T00:00Z is exactly 0. *)
Lemma elevationR_sunriseSite :
  elevationR 0 92.264126515 (1704067200000 + 0 * 3600000) 1703980800000 0 0 = 0.
Proof.
  unfold elevationR, sinElevationR.
  rewrite dayOfYear_newYear2024, gammaR_1 by lra. cbv zeta.
  assert (Hh : hourAngleR 0 0 0 92.264126515 = - (PI / 2)).
  { unfold hourAngleR. rewrite eotR_0. lra. }
  rewrite Hh, cos_neg, cos_PI2.
  replace (0 * PI / 180) with 0 by lra. rewrite sin_0.
  replace (0 * sin (declinationR 0) + cos 0 * cos (declinationR 0) * 0)
    with 0 by lra.
  rewrite Rmin_right, Rmax_right by (try rewrite Rmin_right; lra).
  rewrite asin_0. lra.
Qed.

Lemma elevation_northPole :
  elevation (calculateSolarPosition 90 0 (exampleNewDate "2024-01-01T00:00"))
  = Fin (-0.401802 * (180 / PI)).
Proof.
  change (exampleNewDate "2024-01-01T00:00") with (newYear2024 0).
  unfold newYear2024. now rewrite elevation_Fin, elevationR_northPole.
Qed.

Lemma elevation_sunriseSite :
  elevation
    (calculateSolarPosition 0 92.264126515 (exampleNewDate "2024-01-01T00:00"))
  = Fin 0.
Proof.
  change (exampleNewDate "2024-01-01T00:00") with (newYear2024 0).
  unfold newYear2024. now rewrite elevation_Fin, elevationR_sunriseSite.
Qed.

(** ** The forecast on the concrete inputs *)

Lemma calculateCloudImpact_clear (c T : R) :
  c < 10 -> calculateCloudImpact (Fin c) (Fin T) = Fin 0.95.
Proof. intros H. unfold calculateCloudImpact. now rewrite lt_Fin_true. Qed.

(** The first sample of [oneSample] (800 W/m², no cloud, 25 °C) under an
    aerosol factor [af]. *)
Lemma daytimeIrradiance_oneSample (elev : number) (af : R) :
  estimateAerosolFactor elev = Fin af -> 0 <= af ->
  daytimeIrradiance oneSample 0 elev = Fin (800 * 0.95 * af * 0.85).
Proof.
  intros Haf Hpos.
  unfold daytimeIrradiance, baseGHIAt, cloudCoverAt, temperatureAt, oneSample.
  cbn [nth_error shortwave_radiation cloud_cover temperature_2m].
  rewrite !orElse_zero, orElse_Fin, Haf.
  destruct (Req_dec_T 25 0) as [E | _]; [lra |].
  rewrite calculateCloudImpact_clear by lra.
  fin_norm. f_equal.
  rewrite (Rmax_left 0 (25 - 25)) by lra.
  rewrite (Rmax_right 0 (800 * 0.95 * af)) by nra.
  rewrite Rmax_right by nra. lra.
Qed.

(** C1, counterexample. With latitude [NaN] the call is not rejected: it
    resolves with a point whose confidence is [NaN]. *)
Lemma nan_latitude_is_forecast_not_rejected :
  generateSolarForecast noNumeral exampleNewDate nowhere [] oneSample
  = Resolved [ForecastPoint.mk "2024-01-01T00:00" (Fin 613.7) NaN].
Proof.
  unfold generateSolarForecast, mapi.
  cbn [time oneSample mapFrom coordinate latitude longitude nowhere].
  rewrite forecastSample_day; rewrite elevation_nonfinite by (left; reflexivity);
    [| reflexivity].
  rewrite predictConfidence_NaN.
  rewrite (daytimeIrradiance_oneSample NaN 0.95) by (reflexivity || lra).
  replace (800 * 0.95 * 0.95 * 0.85) with 613.7 by lra.
  reflexivity.
Qed.

(** C1 (as amended) on a three-sample series with latitude [NaN]. *)
Lemma nonfinite_coordinates_at_nowhere :
  (nonfinite (coordinate noNumeral (latitude nowhere)) \/
   nonfinite (coordinate noNumeral (longitude nowhere))) /\
  exists forecast,
    generateSolarForecast noNumeral exampleNewDate nowhere [] threeSamples
      = Resolved forecast /\
    List.length forecast = List.length (time threeSamples) /\
    Forall (fun p => ForecastPoint.confidence p = NaN) forecast.
Proof.
  assert (H : nonfinite (coordinate noNumeral (latitude nowhere)) \/
              nonfinite (coordinate noNumeral (longitude nowhere)))
    by (left; reflexivity).
  split; [exact H |].
  exact (nonfinite_coordinates_are_not_rejected noNumeral exampleNewDate
           nowhere [] threeSamples H).
Defined.

(** C3 at the north pole on 2024-01-01T00:00Z, in the polar night. *)
Lemma night_sample_at_north_pole :
  nth_error (time oneSample) 0 = Some "2024-01-01T00:00"%string /\
  (elevation
     (calculateSolarPosition (coordinate noNumeral (latitude northPole))
        (coordinate noNumeral (longitude northPole))
        (exampleNewDate "2024-01-01T00:00")) <? 0)%js = true /\
  exists forecast,
    generateSolarForecast noNumeral exampleNewDate northPole [] oneSample
      = Resolved forecast /\
    nth_error forecast 0 =
      Some (ForecastPoint.mk "2024-01-01T00:00" (Fin 0) (Fin 0.95)).
Proof.
  assert (Hnight :
    (elevation
       (calculateSolarPosition (coordinate noNumeral (latitude northPole))
          (coordinate noNumeral (longitude northPole))
          (exampleNewDate "2024-01-01T00:00")) <? 0)%js = true).
  { cbn [coordinate latitude longitude northPole].
    rewrite elevation_northPole. apply lt_Fin_true.
    assert (0 < 180 / PI) by (apply Rdiv_lt_0_compat; [lra | apply PI_RGT_0]).
    nra. }
  split; [reflexivity |]. split; [exact Hnight |].
  exact (night_sample_is_zero_with_confidence_095 noNumeral exampleNewDate
           northPole [] oneSample 0 "2024-01-01T00:00" eq_refl Hnight).
Defined.

Lemma elevation_at_sunriseSite :
  elevation
    (calculateSolarPosition (coordinate noNumeral (latitude sunriseSite))
       (coordinate noNumeral (longitude sunriseSite))
       (exampleNewDate "2024-01-01T00:00")) = Fin 0.
Proof.
  cbn [coordinate latitude longitude sunriseSite]. apply elevation_sunriseSite.
Qed.

(** An invalid date has no day of the year: the elevation is [NaN]
    whatever the coordinates. *)
Lemma elevation_invalidDate (lat lon : number) :
  elevation (calculateSolarPosition lat lon invalidDate) = NaN.
Proof.
  unfold calculateSolarPosition, invalidDate.
  cbn [getTime startOfYear getUTCHours getUTCMinutes].
  cbn [sub add neg div mul Math.floor Math.cos Math.sin].
  rewrite mul_NaN_r. reflexivity.
Qed.


(** At [sunriseSiteWest] the elevation at 2024-01-01T01:00Z is exactly 0. *)
Lemma elevationR_sunriseSiteWest :
  elevationR 0 77.264126515 (1704067200000 + 1 * 3600000) 1703980800000 1 0 = 0.
Proof.
  unfold elevationR, sinElevationR.
  rewrite dayOfYear_newYear2024, gammaR_1 by lra. cbv zeta.
  assert (Hh : hourAngleR 0 1 0 77.264126515 = - (PI / 2)).
  { unfold hourAngleR. rewrite eotR_0. lra. }
  rewrite Hh, cos_neg, cos_PI2.
  replace (0 * PI / 180) with 0 by lra. rewrite sin_0.
  replace (0 * sin (declinationR 0) + cos 0 * cos (declinationR 0) * 0)
    with 0 by lra.
  rewrite Rmin_right, Rmax_right by (try rewrite Rmin_right; lra).
  rewrite asin_0. lra.
Qed.

Lemma elevation_at_sunriseSiteWest :
  elevation
    (calculateSolarPosition (coordinate noNumeral (latitude sunriseSiteWest))
       (coordinate noNumeral (longitude sunriseSiteWest))
       (exampleNewDate "2024-01-01T01:00")) = Fin 0.
Proof.
  cbn [coordinate latitude longitude sunriseSiteWest].
  change (exampleNewDate "2024-01-01T01:00") with (newYear2024 1).
  unfold newYear2024. now rewrite elevation_Fin, elevationR_sunriseSiteWest.
Qed.


(** C4 at [sunriseSite], where the elevation is 0: 800 W/m², no cloud,
    25 °C. *)
Lemma daytime_irradiance_at_sunriseSite :
  (0 <=? elevation
           (calculateSolarPosition (coordinate noNumeral (latitude sunriseSite))
              (coordinate noNumeral (longitude sunriseSite))
              (exampleNewDate "2024-01-01T00:00")))%js = true /\
  exists forecast p,
    generateSolarForecast noNumeral exampleNewDate sunriseSite [] oneSample
      = Resolved forecast /\
    nth_error forecast 0 = Some p /\
    ForecastPoint.predictedIrradiance p =
      irradianceFormula (Fin 800) (calculateCloudImpact (Fin 0) (Fin 25))
        (estimateAerosolFactor
           (elevation
              (calculateSolarPosition
                 (coordinate noNumeral (latitude sunriseSite))
                 (coordinate noNumeral (longitude sunriseSite))
                 (exampleNewDate "2024-01-01T00:00"))))
        (Fin 25).
Proof.
  assert (Hday :
    (0 <=? elevation
             (calculateSolarPosition (coordinate noNumeral (latitude sunriseSite))
                (coordinate noNumeral (longitude sunriseSite))
                (exampleNewDate "2024-01-01T00:00")))%js = true).
  { rewrite elevation_at_sunriseSite. apply le_Fin_true. lra. }
  split; [exact Hday |].
  destruct (daytime_irradiance_from_observed_radiation noNumeral exampleNewDate
              sunriseSite [] oneSample 0 "2024-01-01T00:00" eq_refl Hday)
    as [forecast [p [Hres [Hnth [_ Hraw]]]]].
  exists forecast, p. split; [exact Hres |]. split; [exact Hnth |].
  exact (Hraw 800 0 25 eq_refl eq_refl eq_refl).
Defined.



(** ** The trend estimator *)

Lemma reduce_add_Fin (l : list R) (acc : R) :
  reduce (fun a b => (a + b)%js) (Fin acc) (map Fin l) = Fin (fold_left Rplus l acc).
Proof.
  unfold reduce. revert acc. induction l as [| y rest IH]; intros acc; simpl;
    [reflexivity | now rewrite IH].
Qed.

Lemma fold_left_Rplus (l : list R) (acc : R) :
  fold_left Rplus l acc = acc + fold_right Rplus 0 l.
Proof.
  revert acc. induction l as [| y rest IH]; intros acc; simpl; [lra |].
  rewrite IH. lra.
Qed.

Lemma sumOver_cons {A : Type} (f : A -> R) (a : A) (l : list A) :
  sumOver f (a :: l) = f a + sumOver f l.
Proof. reflexivity. Qed.

(** The [forEach] loop of [calculateTrend] accumulates the two sums of the
    least-squares formula. *)
Lemma trend_sums_Fin (xm ym : R) (l : list R) :
  forall start N D,
    forEachFrom
      (fun acc y x =>
         {| numerator := (numerator acc + (ofNat x - Fin xm) * (y - Fin ym))%js;
            denominator := (denominator acc + Math.pow (ofNat x - Fin xm) 2)%js |})
      start (map Fin l) {| numerator := Fin N; denominator := Fin D |}
    = {| numerator := Fin (N + sumOver (crossTerm xm ym) (indexedFrom start l));
         denominator := Fin (D + sumOver (squareTerm xm) (indexedFrom start l)) |}.
Proof.
  induction l as [| y rest IH]; intros start N D.
  - simpl. do 2 f_equal; lra.
  - cbn [map forEachFrom numerator denominator].
    change (ofNat start) with (Fin (INR start)).
    rewrite !sub_Fin, mul_Fin, pow_Fin_square, !add_Fin, IH.
    unfold indexedFrom. cbn [List.length seq map combine].
    rewrite !sumOver_cons. unfold crossTerm, squareTerm. cbn [fst snd].
    do 2 f_equal; lra.
Qed.

Lemma firstn_map_Fin (n : nat) (ys : list R) :
  slice0 n (map Fin ys) = map Fin (firstn n ys).
Proof. unfold slice0. apply firstn_map. Qed.

Lemma INR_ge_2 (n : nat) : (2 <= n)%nat -> 2 <= INR n.
Proof. intros H. apply le_INR in H. simpl in H. lra. Qed.

Lemma calculateTrend_Fin (n : nat) (ys : list R) :
  calculateTrend n (map Fin ys) = Fin (trendR (firstn n ys)).
Proof.
  unfold calculateTrend, trendR. cbv zeta.
  rewrite firstn_map_Fin, length_map.
  set (zs := firstn n ys).
  destruct (Nat.ltb_spec (List.length zs) 2) as [Hlt | Hge]; [reflexivity |].
  pose proof (INR_ge_2 _ Hge) as Hlen.
  change (ofNat (List.length zs)) with (Fin (INR (List.length zs))).
  rewrite reduce_add_Fin, !sub_Fin, !div_Fin by lra.
  unfold forEach.
  rewrite (trend_sums_Fin _ _ zs 0 0 0). cbn [numerator denominator].
  rewrite !Rplus_0_l. unfold sneq.
  destruct (Req_dec_T (sumOver (squareTerm ((INR (List.length zs) - 1) / 2))
                         (indexedFrom 0 zs)) 0) as [E | NE]; [reflexivity |].
  now rewrite div_Fin.
Qed.

(** *** The estimator is the least-squares slope *)

Lemma sum_INR_seq (len : nat) :
  forall start,
    fold_right Rplus 0 (map INR (seq start len))
    = INR len * INR start + INR len * (INR len - 1) / 2.
Proof.
  induction len as [| len IH]; intros start.
  - simpl. lra.
  - cbn [seq map fold_right]. rewrite IH, !S_INR. field.
Qed.

Lemma map_fst_indexed (ys : list R) :
  map fst (indexed ys) = map INR (seq 0 (List.length ys)).
Proof.
  unfold indexed. generalize 0%nat.
  induction ys as [| y rest IH]; intros start; [reflexivity |].
  cbn [List.length seq map combine fst]. now rewrite IH.
Qed.

Lemma mean_index (ys : list R) :
  (1 <= List.length ys)%nat ->
  mean (map fst (indexed ys)) = (INR (List.length ys) - 1) / 2.
Proof.
  intros H. unfold mean.
  rewrite map_fst_indexed, sum_INR_seq, length_map, length_seq.
  assert (1 <= INR (List.length ys)) by (apply le_INR in H; simpl in H; lra).
  simpl INR at 2. field. lra.
Qed.

Lemma trendR_olsSlope (zs : list R) : trendR zs = olsSlope zs.
Proof.
  unfold trendR, olsSlope. cbv zeta.
  destruct (Nat.ltb_spec (List.length zs) 2) as [Hlt | Hge]; [reflexivity |].
  rewrite mean_index by lia.
  unfold mean. rewrite fold_left_Rplus, Rplus_0_l.
  reflexivity.
Qed.

(** *** A linear channel *)

Lemma linearChannel_length (a k : R) (n : nat) :
  List.length (linearChannel a k n) = n.
Proof. unfold linearChannel. now rewrite length_map, length_seq. Qed.

Lemma sum_linear (a k : R) (len : nat) :
  forall start,
    fold_right Rplus 0 (map (fun i => a + k * INR i) (seq start len))
    = INR len * a + k * (INR len * INR start + INR len * (INR len - 1) / 2).
Proof.
  induction len as [| len IH]; intros start.
  - simpl. lra.
  - cbn [seq map fold_right]. rewrite IH, !S_INR. field.
Qed.

Lemma linear_sums (a k xm : R) (len : nat) :
  forall start,
    sumOver (crossTerm xm (a + k * xm))
      (combine (map INR (seq start len))
         (map (fun i => a + k * INR i) (seq start len)))
    = k * sumOver (squareTerm xm)
          (combine (map INR (seq start len))
             (map (fun i => a + k * INR i) (seq start len))).
Proof.
  induction len as [| len IH]; intros start.
  - simpl. lra.
  - cbn [seq map combine]. rewrite !sumOver_cons, IH.
    unfold crossTerm, squareTerm. cbn [fst snd]. lra.
Qed.

Lemma sumOver_squares_nonneg (xm : R) (l : list (R * R)) :
  0 <= sumOver (squareTerm xm) l.
Proof.
  induction l as [| p rest IH]; [simpl; lra |].
  rewrite sumOver_cons. unfold squareTerm at 1.
  pose proof (Rle_0_sqr (fst p - xm)) as Hsq. unfold Rsqr in Hsq. lra.
Qed.

(** On a linear channel of at least two samples the slope is [k]. *)
Lemma trendR_linear (a k : R) (n : nat) :
  (2 <= n)%nat -> trendR (linearChannel a k n) = k.
Proof.
  intros Hn. unfold trendR. cbv zeta. rewrite linearChannel_length.
  destruct (Nat.ltb_spec n 2) as [Hlt | _]; [lia |].
  pose proof (INR_ge_2 n Hn) as Hlen.
  assert (Hym : fold_left Rplus (linearChannel a k n) 0 / INR n
                = a + k * ((INR n - 1) / 2)).
  { rewrite fold_left_Rplus. unfold linearChannel. rewrite sum_linear.
    simpl INR. field. lra. }
  rewrite Hym. unfold indexedFrom. rewrite linearChannel_length.
  unfold linearChannel. rewrite linear_sums.
  set (sxx := sumOver (squareTerm ((INR n - 1) / 2)) _).
  assert (Hpos : 0 < sxx).
  { subst sxx. destruct n as [| m]; [lia |].
    cbn [seq map combine]. rewrite sumOver_cons.
    pose proof (sumOver_squares_nonneg ((INR (S m) - 1) / 2)
                  (combine (map INR (seq 1 m))
                     (map (fun i => a + k * INR i) (seq 1 m)))) as Hrest.
    unfold squareTerm at 1. cbn [fst]. simpl INR at 1 3. nra. }
  destruct (Req_dec_T sxx 0) as [E | _]; [lra |].
  field. lra.
Qed.

(** *** Rounding by [toFixed] *)

Lemma roundHalfAway_error (x : R) : Rabs (roundHalfAway x - x) <= / 2.
Proof.
  unfold roundHalfAway. destruct (Rlt_dec x 0) as [Hneg | Hpos].
  - destruct (base_Int_part (- x + / 2)) as [H1 H2].
    apply Rabs_le. lra.
  - destruct (base_Int_part (x + / 2)) as [H1 H2].
    apply Rabs_le. lra.
Qed.

Lemma toFixed_error (r : R) (digits : nat) :
  exists q, toFixed (Fin r) digits = Fin q /\ Rabs (q - r) <= / 2 / 10 ^ digits.
Proof.
  assert (Hp : 0 < 10 ^ digits) by (apply pow_lt; lra).
  assert (Htol : 0 <= / 2 / 10 ^ digits).
  { apply Rlt_le, Rdiv_lt_0_compat; lra. }
  unfold toFixed. destruct (Rle_dec (10 ^ 21) (Rabs r)) as [Hbig | Hsmall].
  - exists r. split; [reflexivity |].
    replace (r - r) with 0 by lra. now rewrite Rabs_R0.
  - eexists; split; [reflexivity |].
    replace (roundHalfAway (r * 10 ^ digits) / 10 ^ digits - r)
      with ((roundHalfAway (r * 10 ^ digits) - r * 10 ^ digits) / 10 ^ digits)
      by (field; lra).
    unfold Rdiv at 1. rewrite Rabs_mult, (Rabs_right (/ 10 ^ digits)).
    + apply Rmult_le_compat_r; [| apply roundHalfAway_error].
      apply Rlt_le, Rinv_0_lt_compat, Hp.
    + apply Rle_ge, Rlt_le, Rinv_0_lt_compat, Hp.
Qed.

Lemma toFixed_zero (digits : nat) : toFixed (Fin 0) digits = Fin 0.
Proof.
  unfold toFixed. destruct (Rle_dec (10 ^ 21) (Rabs 0)) as [_ | _]; [reflexivity |].
  unfold roundHalfAway. rewrite Rmult_0_l.
  destruct (Rlt_dec 0 0) as [H | _]; [lra |].
  rewrite <- (Int_part_spec (0 + / 2) 0) by lra.
  f_equal. unfold Rdiv. apply Rmult_0_l.
Qed.

(** *** The five trends of [analyzeWeatherTrends] *)

Lemma analyzeWeatherTrends_channel (f : EnhancedWeatherForecast) (ch : Channel) :
  let n := Nat.min 24 (List.length (temperature_2m f)) in
  trendOf (analyzeWeatherTrends f) ch =
    if (n <? 2)%nat then Fin 0
    else toFixed (calculateTrend n (channelData f ch)) (fractionDigits ch).
Proof.
  intros n. unfold analyzeWeatherTrends. fold n.
  destruct (n <? 2)%nat; destruct ch; reflexivity.
Qed.

Lemma olsSlope_short (ys : list R) : (List.length ys < 2)%nat -> olsSlope ys = 0.
Proof.
  intros H. unfold olsSlope. cbv zeta.
  destruct (Nat.ltb_spec (List.length ys) 2); [reflexivity | lia].
Qed.

Lemma firstn_window (ys : list R) (m : nat) :
  (List.length ys <= m)%nat ->
  firstn (Nat.min 24 m) ys = firstn (Nat.min 24 (List.length ys)) ys.
Proof.
  intros H. destruct (Nat.le_gt_cases 24 (List.length ys)) as [Hlong | Hshort].
  - now rewrite !Nat.min_l by lia.
  - rewrite (Nat.min_r 24 (List.length ys)) by lia.
    rewrite firstn_all. apply firstn_all2.
    destruct (Nat.le_gt_cases 24 m); [rewrite Nat.min_l | rewrite Nat.min_r]; lia.
Qed.

Lemma firstn_seq_min (n : nat) :
  forall start len, firstn n (seq start len) = seq start (Nat.min n len).
Proof.
  induction n as [| n IH]; intros start [| len]; cbn [firstn seq Nat.min];
    try reflexivity.
  now rewrite IH.
Qed.

Lemma firstn_linearChannel (a k : R) (n m : nat) :
  firstn n (linearChannel a k m) = linearChannel a k (Nat.min n m).
Proof. unfold linearChannel. now rewrite firstn_map, firstn_seq_min. Qed.

(** A channel that is present is read as it is. *)
Lemma channelData_field (f : EnhancedWeatherForecast) (ch : Channel)
    (data : list number) :
  channelField f ch = Some data -> channelData f ch = data.
Proof.
  destruct ch; cbn [channelField channelData]; intros H;
    first [now injection H | now rewrite H].
Qed.

(** The trend of a finite channel: the window is sized by the temperature
    channel. *)
Lemma trend_of_finite_channel (f : EnhancedWeatherForecast) (ch : Channel)
    (ys : list R) :
  channelField f ch = Some (map Fin ys) ->
  let n := Nat.min 24 (List.length (temperature_2m f)) in
  trendOf (analyzeWeatherTrends f) ch =
    if (n <? 2)%nat then Fin 0
    else toFixed (Fin (olsSlope (firstn n ys))) (fractionDigits ch).
Proof.
  intros Hfield n. apply channelData_field in Hfield.
  rewrite analyzeWeatherTrends_channel. cbv zeta. fold n.
  destruct (n <? 2)%nat; [reflexivity |].
  now rewrite Hfield, calculateTrend_Fin, trendR_olsSlope.
Qed.




(** ** Cloud impact across the 10 % threshold *)

(** [0.1^1.3 < 0.058]: the tenth power of [0.1^1.3] is [0.1^13]. *)
Lemma Rpower_tenth_bound : Rpower (10 / 100) 1.3 < 0.058.
Proof.
  set (x := Rpower (10 / 100) 1.3).
  assert (Hx : 0 < x) by (unfold x, Rpower; apply exp_pos).
  assert (H10 : x ^ 10 = (10 / 100) ^ 13).
  { rewrite <- (Rpower_pow 10 x Hx), <- (Rpower_pow 13 (10 / 100)) by lra.
    unfold x. rewrite Rpower_mult. f_equal. simpl. lra. }
  destruct (Rlt_dec x 0.058) as [H | H]; [exact H | exfalso].
  assert (Hle : 0.058 ^ 10 <= x ^ 10) by (apply pow_incr; lra).
  rewrite H10 in Hle. lra.
Qed.

(** C2, evaluated on the code: for every temperature the cloud impact at
    9 % cloud cover is 0.95 and the cloud impact at 10 % is larger. *)
Theorem cloud_impact_rises_from_9_to_10 :
  forall T : R,
    calculateCloudImpact (Fin 9) (Fin T) = Fin 0.95 /\
    exists r, calculateCloudImpact (Fin 10) (Fin T) = Fin r /\ 0.95 < r.
Proof.
  intros T. split; [apply calculateCloudImpact_clear; lra |].
  unfold calculateCloudImpact, gt.
  rewrite !lt_Fin_false by lra. cbv zeta.
  rewrite tempFactor_Fin, div_Fin by lra.
  rewrite pow_Fin_pos by lra. fin_norm.
  eexists; split; [reflexivity |].
  apply Rlt_le_trans with (2 := Rmax_r _ _).
  pose proof Rpower_tenth_bound as Hp.
  assert (Hp0 : 0 < Rpower (10 / 100) 1.3) by (unfold Rpower; apply exp_pos).
  assert (Hf : Rmax 0.8 (Rmin 1.0 ((T + 5) / 45)) <= 1).
  { apply Rmax_lub; [lra |]. pose proof (Rmin_l 1.0 ((T + 5) / 45)). lra. }
  assert (Hf0 : 0.8 <= Rmax 0.8 (Rmin 1.0 ((T + 5) / 45))) by apply Rmax_l.
  nra.
Qed.

Lemma Rpower_le_1 (x e : R) : 0 < x <= 1 -> 0 <= e -> Rpower x e <= 1.
Proof.
  intros Hx He.
  assert (H1 : Rpower 1 e = 1)
    by (unfold Rpower; now rewrite ln_1, Rmult_0_r, exp_0).
  rewrite <- H1. apply Rle_Rpower_l; lra.
Qed.

(** The rise at the threshold is the only one: from 10 % on (and below
    10 %, where it is constant) the cloud impact is non-increasing in the
    cloud cover. *)
Lemma calculateCloudImpact_nonincreasing_from_10 (c1 c2 T : R) :
  10 <= c1 -> c1 <= c2 ->
  exists r1 r2,
    calculateCloudImpact (Fin c1) (Fin T) = Fin r1 /\
    calculateCloudImpact (Fin c2) (Fin T) = Fin r2 /\
    r2 <= r1.
Proof.
  intros H1 H12. unfold calculateCloudImpact, gt.
  rewrite !(lt_Fin_false _ 10) by lra. cbv zeta.
  rewrite tempFactor_Fin.
  set (tf := Rmax 0.8 (Rmin 1.0 ((T + 5) / 45))).
  assert (Hf0 : 0.8 <= tf) by apply Rmax_l.
  assert (Hf1 : tf <= 1).
  { apply Rmax_lub; [lra |]. pose proof (Rmin_l 1.0 ((T + 5) / 45)). lra. }
  destruct (Rlt_dec 90 c2) as [Hc2 | Hc2].
  - rewrite (lt_Fin_true 90 c2) by exact Hc2.
    destruct (Rlt_dec 90 c1) as [Hc1 | Hc1].
    + rewrite (lt_Fin_true 90 c1) by exact Hc1.
      exists 0.15, 0.15. repeat split; lra.
    + rewrite (lt_Fin_false 90 c1) by lra.
      rewrite div_Fin, pow_Fin_pos by lra. fin_norm.
      eexists _, 0.15. split; [reflexivity |]. split; [reflexivity |].
      apply Rle_trans with (2 := Rmax_r _ _).
      assert (Hp0 : 0 < Rpower (c1 / 100) 1.3) by (unfold Rpower; apply exp_pos).
      assert (Hp1 : Rpower (c1 / 100) 1.3 <= 1) by (apply Rpower_le_1; lra).
      nra.
  - rewrite (lt_Fin_false 90 c2), (lt_Fin_false 90 c1) by lra.
    rewrite !div_Fin, !pow_Fin_pos by lra. fin_norm.
    eexists _, _. split; [reflexivity |]. split; [reflexivity |].
    assert (Hp : Rpower (c1 / 100) 1.3 <= Rpower (c2 / 100) 1.3)
      by (apply Rle_Rpower_l; lra).
    apply Rmax_lub; [apply Rmax_l |].
    apply Rle_trans with (2 := Rmax_r _ _). nra.
Qed.

(** * Further properties of the code *)

(** ** Aerosol factor *)

(** X1. The aerosol factor is a non-decreasing step function of the
    elevation, with values between 0 and 0.95. *)
Theorem estimateAerosolFactor_monotone :
  forall e1 e2 : R,
    e1 <= e2 ->
    exists a1 a2,
      estimateAerosolFactor (Fin e1) = Fin a1 /\
      estimateAerosolFactor (Fin e2) = Fin a2 /\
      0 <= a1 /\ a1 <= a2 /\ a2 <= 0.95.
Proof.
  intros e1 e2 H. unfold estimateAerosolFactor, lt.
  repeat match goal with
         | |- context [Rlt_dec ?a ?b] => destruct (Rlt_dec a b)
         end;
    eexists _, _; (split; [reflexivity | split; [reflexivity | lra]]).
Qed.

(** X1 between 5° and 50° of elevation. *)
Lemma estimateAerosolFactor_monotone_5_50 :
  exists a1 a2,
    estimateAerosolFactor (Fin 5) = Fin a1 /\
    estimateAerosolFactor (Fin 50) = Fin a2 /\
    0 <= a1 /\ a1 <= a2 /\ a2 <= 0.95.
Proof. apply (estimateAerosolFactor_monotone 5 50). lra. Defined.

(** ** Geometry of the solar position *)

Lemma degrees_positive : 0 < 180 / PI.
Proof. apply Rdiv_lt_0_compat; [lra | apply PI_RGT_0]. Qed.

Lemma elevationR_range (lat lon T Y h m : R) :
  -90 <= elevationR lat lon T Y h m <= 90.
Proof.
  unfold elevationR.
  destruct (asin_bound (Rmax (-1) (Rmin 1 (sinElevationR lat lon T Y h m))))
    as [Hlo Hhi].
  pose proof degrees_positive as Hd. pose proof PI_RGT_0 as Hpi.
  assert (E : PI / 2 * (180 / PI) = 90) by (field; lra).
  set (a := asin _) in *. set (d := 180 / PI) in *. set (q := PI / 2) in *.
  split; nra.
Qed.

Lemma azimuth_below_horizon (x k : R) (above : number) :
  x <= 0 -> ((if Fin 0 <? Fin x then above else Fin 0) * Fin k)%js = Fin 0.
Proof.
  intros H. rewrite lt_Fin_false by exact H. rewrite mul_Fin. f_equal. ring.
Qed.



Lemma floor_day (T Y : R) :
  Math.floor ((Fin T - Fin Y) / 86400000)%js = Fin (dayOfYearR T Y).
Proof. rewrite sub_Fin, div_Fin by lra. reflexivity. Qed.

Lemma solarMinutes_shift (eot : number) (h m lon d : R) :
  (Fin h * 60 + Fin m + eot + Fin (lon + 15 * d) * 4)%js
  = (Fin (h + d) * 60 + Fin m + eot + Fin lon * 4)%js.
Proof.
  rewrite !mul_Fin, !add_Fin. destruct eot as [| s | r]; cbn [add];
    try reflexivity.
  f_equal. lra.
Qed.

(** X3. Longitude acts as a pure time offset of 4 minutes per degree: the
    position computed [15·d] degrees further east equals the position
    computed [d] hours later on the same day of the year. *)
Theorem longitude_is_a_time_offset :
  forall lat lon T1 T2 Y h m d : R,
    dayOfYearR T1 Y = dayOfYearR T2 Y ->
    calculateSolarPosition (Fin lat) (Fin (lon + 15 * d))
      {| getTime := Fin T1; startOfYear := Fin Y;
         getUTCHours := Fin h; getUTCMinutes := Fin m |}
    = calculateSolarPosition (Fin lat) (Fin lon)
        {| getTime := Fin T2; startOfYear := Fin Y;
           getUTCHours := Fin (h + d); getUTCMinutes := Fin m |}.
Proof.
  intros lat lon T1 T2 Y h m d Hday.
  unfold calculateSolarPosition.
  cbv beta zeta iota delta [getTime startOfYear getUTCHours getUTCMinutes].
  rewrite !floor_day, Hday, solarMinutes_shift. reflexivity.
Qed.

(** X3 between longitude 15° at 00:00Z and longitude 0° at 01:00Z on
    2024-01-01. *)
Lemma longitude_15_is_one_hour :
  calculateSolarPosition (Fin 0) (Fin (0 + 15 * 1))
    {| getTime := Fin (1704067200000 + 0 * 3600000);
       startOfYear := Fin 1703980800000;
       getUTCHours := Fin 0; getUTCMinutes := Fin 0 |}
  = calculateSolarPosition (Fin 0) (Fin 0)
      {| getTime := Fin (1704067200000 + 1 * 3600000);
         startOfYear := Fin 1703980800000;
         getUTCHours := Fin (0 + 1); getUTCMinutes := Fin 0 |}.
Proof.
  apply longitude_is_a_time_offset.
  now rewrite !dayOfYear_newYear2024 by lra.
Defined.

(** ** Clear-sky irradiance and decomposition *)

(** X4. For an elevation in [(0, 90]] with the zenith angle its complement,
    the clear-sky irradiance is a finite, strictly positive number. *)
Theorem clear_sky_positive_above_horizon :
  forall e : R,
    0 < e <= 90 ->
    exists g,
      calculateClearSkyIrradiance (Fin e) (Fin 90 - Fin e)%js = Fin g /\ 0 < g.
Proof.
  intros e [He0 He90]. unfold calculateClearSkyIrradiance.
  rewrite le_Fin_false by exact He0. cbv zeta.
  unfold Math.PI. rewrite !sub_Fin, mul_Fin, div_Fin by lra.
  rewrite pow_Fin_pos by lra.
  cbn [Math.cos]. rewrite mul_Fin, add_Fin.
  set (z := (90 - e) * PI / 180).
  set (p := Rpower (96.07995 - (90 - e)) (-1.6364)).
  assert (Hp : 0 < p) by (unfold p, Rpower; apply exp_pos).
  assert (Hz : 0 < cos z).
  { pose proof PI_RGT_0. apply cos_gt_0; unfold z; nra. }
  rewrite div_Fin by nra.
  rewrite mul_Fin, sub_Fin. cbn [Math.exp]. rewrite max_Fin, !mul_Fin, max_Fin.
  eexists; split; [reflexivity |].
  apply Rlt_le_trans with (2 := Rmax_r _ _).
  rewrite (Rmax_right 0 (cos z)) by lra.
  pose proof (exp_pos (0.6797 - -0.00639 * (1 / (cos z + 0.50572 * p)))).
  nra.
Qed.

(** X4 with the sun at the zenith. *)
Lemma clear_sky_positive_at_zenith :
  exists g,
    calculateClearSkyIrradiance (Fin 90) (Fin 90 - Fin 90)%js = Fin g /\ 0 < g.
Proof. apply clear_sky_positive_above_horizon. lra. Defined.

Lemma clearness_Fin (ghi : R) (clearSky : number) :
  exists k,
    (if clearSky >? 0 then Math.min 1 (Fin ghi / clearSky) else 0)%js = Fin k.
Proof.
  unfold gt. destruct clearSky as [| s | c].
  - now exists 0.
  - destruct s; cbn [lt negb div]; [now exists 0 |].
    rewrite min_Fin. now eexists.
  - destruct (Rlt_dec 0 c) as [Hc | Hc].
    + rewrite lt_Fin_true, div_Fin, min_Fin by lra. now eexists.
    + rewrite lt_Fin_false by lra. now exists 0.
Qed.

Lemma decomposeIrradiance_components (ghi e : R) (cloudCover : number) :
  exists direct diffuse,
    decomposeIrradiance (Fin ghi) (Fin e) cloudCover
      = {| dni := Fin direct; dhi := Fin diffuse |} /\
    0 <= direct /\ 0 <= diffuse /\
    (e <= 0 -> direct = 0 /\ diffuse = 0).
Proof.
  unfold decomposeIrradiance.
  destruct (Rle_dec e 0) as [Hnight | Hday].
  - rewrite le_Fin_true by exact Hnight.
    exists 0, 0. repeat split; lra.
  - rewrite le_Fin_false by lra. cbv zeta.
    destruct (clearness_Fin ghi
                (calculateClearSkyIrradiance (Fin e) (90 - Fin e)%js)) as [k ->].
    assert (Hrad : (Fin e * Math.PI / 180)%js = Fin (e * PI / 180))
      by (unfold Math.PI; now rewrite mul_Fin, div_Fin by lra).
    rewrite Hrad. cbn [Math.sin].
    set (s := sin (e * PI / 180)).
    assert (Hm : 0 < Rmax 0.01 s)
      by (apply Rlt_le_trans with (2 := Rmax_l _ _); lra).
    assert (Hd : exists diffuse,
      (if Fin k <=? 0.3 then Fin ghi * (1.020 - 0.254 * Fin k + 0.0123 * Fin s)
       else if Fin k <=? 0.78
            then Fin ghi * (0.972 - 0.306 * Fin k + 0.0311 * Fin s)
            else Fin ghi * (0.29 * Fin k + 0.0049 * Fin s))%js = Fin diffuse).
    { destruct (Fin k <=? 0.3)%js; [| destruct (Fin k <=? 0.78)%js];
        fin_norm; now eexists. }
    destruct Hd as [diffuse ->].
    rewrite max_Fin, sub_Fin, div_Fin by lra. rewrite !max_Fin.
    eexists _, _. split; [reflexivity |].
    split; [apply Rmax_l |]. split; [apply Rmax_l | lra].
Qed.

(** The cloud cover passed to [decomposeIrradiance] is not used. *)
Lemma decomposeIrradiance_ignores_cloudCover (ghi elev c1 c2 : number) :
  decomposeIrradiance ghi elev c1 = decomposeIrradiance ghi elev c2.
Proof. reflexivity. Qed.



(** ** Coordinate validation in the input form *)

(** X6. [validateCoordinates] accepts exactly the finite coordinates with
    latitude in [[-90, 90]] and longitude in [[-180, 180]]. *)
Theorem validateCoordinates_accepts_exactly_the_valid_range :
  forall lat lon : number,
    valid (validateCoordinates lat lon) = true <->
    exists a b : R,
      lat = Fin a /\ lon = Fin b /\ -90 <= a <= 90 /\ -180 <= b <= 180.
Proof.
  intros lat lon. unfold validateCoordinates, gt. split.
  - destruct lat as [| s | a], lon as [| t | b]; cbn [isFinite negb orb valid];
      try discriminate.
    unfold lt.
    destruct (Rlt_dec a (-90)), (Rlt_dec 90 a), (Rlt_dec b (-180)),
      (Rlt_dec 180 b); cbn [orb valid]; try discriminate.
    intros _. exists a, b. repeat split; lra.
  - intros [a [b [-> [-> [[Ha1 Ha2] [Hb1 Hb2]]]]]].
    cbn [isFinite negb orb]. rewrite !lt_Fin_false by lra. reflexivity.
Qed.

(** ** Weather alerts *)

Lemma fold_max_Fin (l : list R) (a : R) :
  fold_left Math.max (map Fin l) (Fin a) = Fin (fold_left Rmax l a).
Proof.
  revert a. induction l as [| x rest IH]; intros a; cbn [map fold_left];
    [reflexivity | now rewrite max_Fin, IH].
Qed.

Lemma fold_min_Fin (l : list R) (a : R) :
  fold_left Math.min (map Fin l) (Fin a) = Fin (fold_left Rmin l a).
Proof.
  revert a. induction l as [| x rest IH]; intros a; cbn [map fold_left];
    [reflexivity | now rewrite min_Fin, IH].
Qed.

Lemma fold_Rmax_upper (l : list R) :
  forall a, a <= fold_left Rmax l a /\ forall x, In x l -> x <= fold_left Rmax l a.
Proof.
  induction l as [| y rest IH]; intros a; cbn [fold_left].
  - split; [lra | intros x []].
  - destruct (IH (Rmax a y)) as [H1 H2].
    pose proof (Rmax_l a y). pose proof (Rmax_r a y).
    split; [lra |]. intros x [<- | Hx]; [lra | now apply H2].
Qed.

Lemma fold_Rmin_lower (l : list R) :
  forall a, fold_left Rmin l a <= a /\ forall x, In x l -> fold_left Rmin l a <= x.
Proof.
  induction l as [| y rest IH]; intros a; cbn [fold_left].
  - split; [lra | intros x []].
  - destruct (IH (Rmin a y)) as [H1 H2].
    pose proof (Rmin_l a y). pose proof (Rmin_r a y).
    split; [lra |]. intros x [<- | Hx]; [lra | now apply H2].
Qed.

(** The spread [Math.max(...l) - Math.min(...l)] of a finite non-empty
    list dominates the difference of any two of its entries. *)
Lemma spread_Fin (l : list R) :
  l <> [] ->
  exists d,
    (maxOfList (map Fin l) - minOfList (map Fin l))%js = Fin d /\
    forall x y, In x l -> In y l -> x - y <= d.
Proof.
  destruct l as [| a rest]; [congruence | intros _].
  unfold maxOfList, minOfList. cbn [map fold_left].
  change (Math.max NInf (Fin a)) with (Fin a).
  change (Math.min PInf (Fin a)) with (Fin a).
  rewrite fold_max_Fin, fold_min_Fin, sub_Fin.
  eexists; split; [reflexivity |].
  destruct (fold_Rmax_upper rest a) as [U1 U2].
  destruct (fold_Rmin_lower rest a) as [L1 L2].
  intros x y [<- | Hx] [<- | Hy];
    try specialize (U2 _ Hx); try specialize (L2 _ Hy); lra.
Qed.

(** X7. When two of the first six cloud-cover values of a finite series
    differ by more than 50, the cloud-cover alert is raised, whatever the
    current cloud cover and the trends. *)
Theorem cloud_alert_on_spread :
  forall (f : EnhancedWeatherForecast) (trends : WeatherTrends)
         (clouds : list R) (x y : R),
    cloud_cover f = map Fin clouds ->
    In x (firstn 6 clouds) -> In y (firstn 6 clouds) ->
    50 < x - y ->
    cloudCoverAlert (generateWeatherAlerts f trends) = true.
Proof.
  intros f trends clouds x y Hc Hx Hy Hxy.
  unfold generateWeatherAlerts. cbv zeta. cbn [cloudCoverAlert].
  rewrite Hc, firstn_map_Fin, length_map.
  set (w := firstn 6 clouds) in *.
  assert (Hlen : (1 < List.length w)%nat).
  { destruct w as [| a [| b rest]]; cbn [List.length]; try lia.
    - destruct Hx.
    - destruct Hx as [<- | []], Hy as [<- | []]. lra. }
  destruct (Nat.ltb_spec 1 (List.length w)) as [_ | Hno]; [| lia].
  destruct (spread_Fin w) as [d [-> Hd]].
  { intros E. rewrite E in Hx. destruct Hx. }
  specialize (Hd x y Hx Hy).
  unfold gt at 2. rewrite (lt_Fin_true 50 d) by lra.
  apply orb_true_r.
Qed.

(** X7 on a series that jumps from 10 % to 70 % cloud cover. *)
Lemma cloud_alert_on_jump :
  cloudCoverAlert
    (generateWeatherAlerts (plainForecast [20; 21] [10; 70] [0; 0] None) zeroTrends)
  = true.
Proof.
  apply (cloud_alert_on_spread _ _ [10; 70] 70 10).
  - reflexivity.
  - cbn. right. left. reflexivity.
  - cbn. left. reflexivity.
  - lra.
Defined.

Lemma analyzeWeatherTrends_short (f : EnhancedWeatherForecast) :
  (List.length (temperature_2m f) < 2)%nat ->
  forall ch, trendOf (analyzeWeatherTrends f) ch = Fin 0.
Proof.
  intros H ch. rewrite analyzeWeatherTrends_channel. cbv zeta.
  destruct (Nat.ltb_spec (Nat.min 24 (List.length (temperature_2m f))) 2);
    [reflexivity | lia].
Qed.

Lemma pressureAlert_short (f : EnhancedWeatherForecast) :
  (List.length (temperature_2m f) < 2)%nat ->
  pressureAlert (generateWeatherAlerts f (analyzeWeatherTrends f)) = false.
Proof.
  intros H. unfold generateWeatherAlerts. cbv zeta. cbn [pressureAlert].
  change (pressureTrend (analyzeWeatherTrends f))
    with (trendOf (analyzeWeatherTrends f) Pressure).
  rewrite analyzeWeatherTrends_short by exact H.
  rewrite abs_Fin, Rabs_R0. unfold gt. apply lt_Fin_false. lra.
Qed.

(** X8. The pressure alert is computed from the analyzer's pressure trend,
    whose window is sized by the temperature channel: with fewer than two
    temperature samples no pressure alert is raised, whatever the pressure
    channel holds. *)
Theorem no_pressure_alert_without_two_temperatures :
  forall f : EnhancedWeatherForecast,
    (List.length (temperature_2m f) < 2)%nat ->
    pressureAlert (generateWeatherAlerts f (analyzeWeatherTrends f)) = false.
Proof. exact pressureAlert_short. Qed.

(** X8 on [fallingPressure]. *)
Lemma no_pressure_alert_on_fallingPressure :
  pressureAlert
    (generateWeatherAlerts fallingPressure (analyzeWeatherTrends fallingPressure))
  = false.
Proof.
  apply no_pressure_alert_without_two_temperatures. cbn. lia.
Defined.

(** X9. A forecast without any sample raises none of the five alerts. *)
Theorem no_alert_on_empty_forecast :
  forall f : EnhancedWeatherForecast,
    temperature_2m f = [] ->
    cloud_cover f = [] ->
    firstOf (windSpeed f) = None ->
    firstOf (precipitation f) = None ->
    generateWeatherAlerts f (analyzeWeatherTrends f)
    = {| cloudCoverAlert := false; temperatureAlert := false;
         windAlert := false; pressureAlert := false;
         precipitationAlert := false |}.
Proof.
  intros f Ht Hc Hw Hp.
  assert (Hpress :
    pressureAlert (generateWeatherAlerts f (analyzeWeatherTrends f)) = false).
  { apply pressureAlert_short. rewrite Ht. cbn. lia. }
  revert Hpress. unfold generateWeatherAlerts. cbv zeta. cbn [pressureAlert].
  intros ->. rewrite Ht, Hc, Hw, Hp.
  cbn [nth_error orElse slice0 firstn List.length Nat.ltb Nat.leb].
  unfold gt. rewrite !lt_Fin_false by lra. reflexivity.
Qed.

(** X9 on the empty series. *)
Lemma no_alert_on_emptySeries :
  generateWeatherAlerts emptySeries (analyzeWeatherTrends emptySeries)
  = {| cloudCoverAlert := false; temperatureAlert := false;
       windAlert := false; pressureAlert := false;
       precipitationAlert := false |}.
Proof.
  apply no_alert_on_empty_forecast; reflexivity.
Defined.

(** ** Forecast quality *)

Lemma reduce_sq_Fin (mu : R) (l : list R) (acc : R) :
  reduce (fun sum t => (sum + Math.pow (t - Fin mu) 2)%js) (Fin acc) (map Fin l)
  = Fin (sqDev mu l acc).
Proof.
  unfold reduce, sqDev. revert acc.
  induction l as [| y rest IH]; intros acc; cbn [map fold_left];
    [reflexivity |].
  now rewrite sub_Fin, pow_Fin_square, add_Fin, IH.
Qed.

Lemma sqDev_nonneg (mu : R) (l : list R) :
  forall acc, 0 <= acc -> 0 <= sqDev mu l acc.
Proof.
  unfold sqDev. induction l as [| y rest IH]; intros acc H; cbn [fold_left];
    [exact H |].
  apply IH. pose proof (Rle_0_sqr (y - mu)) as Hsq. unfold Rsqr in Hsq. lra.
Qed.

Lemma sqDev_const (mu : R) (l : list R) :
  (forall x, In x l -> x = mu) -> forall acc, sqDev mu l acc = acc.
Proof.
  unfold sqDev. induction l as [| y rest IH]; intros H acc; cbn [fold_left];
    [reflexivity |].
  rewrite IH by (intros x Hx; apply H; now right).
  rewrite (H y) by now left. ring.
Qed.

Lemma sum_const (t : R) (l : list R) :
  (forall x, In x l -> x = t) ->
  forall acc, fold_left Rplus l acc = acc + INR (List.length l) * t.
Proof.
  induction l as [| y rest IH]; intros H acc; cbn [fold_left List.length].
  - simpl. ring.
  - rewrite IH by (intros x Hx; apply H; now right).
    rewrite (H y) by now left. rewrite S_INR. ring.
Qed.

Lemma INR_length_pos {A : Type} (l : list A) : l <> [] -> 0 < INR (List.length l).
Proof.
  destruct l as [| a rest]; [congruence | intros _].
  cbn [List.length]. rewrite S_INR. pose proof (pos_INR (List.length rest)). lra.
Qed.

(** The stability term [max(0.3, 1 - sqrt(variance)/d)] of a finite,
    non-empty window. *)
Lemma stability_Fin (l : list R) (d : R) :
  l <> [] -> 0 < d ->
  exists st,
    Math.max 0.3
      (1 - Math.sqrt
             (reduce
                (fun sum t =>
                   sum + Math.pow
                           (t - reduce (fun a b => a + b) (Fin 0) (map Fin l) /
                                ofNat (List.length (map Fin l))) 2)
                (Fin 0) (map Fin l) /
              ofNat (List.length (map Fin l))) / Fin d)%js = Fin st /\
    0.3 <= st <= 1 /\
    forall t, (forall x, In x l -> x = t) -> st = 1.
Proof.
  intros Hl Hd. pose proof (INR_length_pos l Hl) as Hn.
  rewrite length_map, reduce_add_Fin. unfold ofNat.
  rewrite div_Fin, reduce_sq_Fin, div_Fin by lra.
  set (mu := fold_left Rplus l 0 / INR (List.length l)).
  set (v := sqDev mu l 0 / INR (List.length l)).
  assert (Hv : 0 <= v).
  { unfold v. apply Rmult_le_pos; [apply sqDev_nonneg; lra |].
    apply Rlt_le, Rinv_0_lt_compat, Hn. }
  unfold Math.sqrt. destruct (Rlt_dec v 0) as [Hneg | _]; [lra |].
  rewrite div_Fin, sub_Fin, max_Fin by lra.
  eexists; split; [reflexivity |].
  pose proof (sqrt_pos v) as Hs.
  assert (Hq : 0 <= sqrt v / d).
  { apply Rmult_le_pos; [exact Hs | apply Rlt_le, Rinv_0_lt_compat, Hd]. }
  split; [split; [apply Rmax_l | apply Rmax_lub; lra] |].
  intros t Ht.
  assert (Hmu : mu = t).
  { unfold mu. rewrite (sum_const t l Ht). field. lra. }
  assert (Hv0 : v = 0).
  { unfold v. rewrite sqDev_const by (rewrite Hmu; exact Ht).
    unfold Rdiv. apply Rmult_0_l. }
  rewrite Hv0, sqrt_0. unfold Rdiv at 1. rewrite Rmult_0_l.
  rewrite Rmax_right by lra. lra.
Qed.

Lemma firstn_nonempty {A : Type} (n : nat) (l : list A) :
  (1 <= n)%nat -> l <> [] -> firstn n l <> [].
Proof.
  destruct n as [| n]; [lia |]. destruct l as [| a rest]; [congruence |].
  discriminate.
Qed.

Lemma In_firstn_In {A : Type} (n : nat) (l : list A) (x : A) :
  In x (firstn n l) -> In x l.
Proof.
  revert l. induction n as [| n IH]; intros [| a rest]; cbn [firstn];
    try (intros Hin; now destruct Hin).
  intros [<- | Hin]; [now left | right; now apply IH].
Qed.

(** The quality score of a forecast with finite, non-empty temperature and
    cloud-cover channels. *)
Lemma quality_Fin (f : EnhancedWeatherForecast) (temps clouds : list R) :
  temperature_2m f = map Fin temps -> temps <> [] ->
  cloud_cover f = map Fin clouds -> clouds <> [] ->
  exists q,
    calculateForecastQuality f = Fin q /\ 0.41 <= q <= 0.99 /\
    forall t c,
      (forall x, In x temps -> x = t) ->
      (forall x, In x clouds -> x = c) ->
      (forall p, In p (orEmpty (precipitation f)) -> (p >? 0)%js = false) ->
      q = 0.99.
Proof.
  intros Ht Hts Hc Hcs. unfold calculateForecastQuality.
  rewrite Ht, Hc, length_map.
  pose proof (INR_length_pos temps Hts) as Hlen.
  destruct (Nat.eqb_spec (List.length temps) 0) as [E | _];
    [rewrite E in Hlen; simpl in Hlen; lra |].
  cbv zeta. rewrite !firstn_map_Fin.
  set (n := Nat.min 24 (List.length temps)).
  assert (Hn : (1 <= n)%nat).
  { destruct temps; [congruence |]. unfold n. cbn [List.length]. lia. }
  destruct (stability_Fin (firstn n temps) 20) as [st [-> [Hst Hst1]]];
    [now apply firstn_nonempty | lra |].
  destruct (stability_Fin (firstn n clouds) 40) as [sc [-> [Hsc Hsc1]]];
    [now apply firstn_nonempty | lra |].
  match goal with
  | |- context [if ?b then Fin 0.85 else Fin 1.0] => destruct b eqn:Hwet
  end; fin_norm; (eexists; split; [reflexivity |]); split.
  - unfold Rmin, Rmax; repeat destruct (Rle_dec _ _); lra.
  - intros t c Hts1 Hcs1 Hdry. exfalso.
    apply existsb_exists in Hwet. destruct Hwet as [p [Hp Hpos]].
    rewrite Hdry in Hpos; [discriminate |].
    destruct (precipitation f) as [data |]; [| destruct Hp].
    now apply In_firstn_In in Hp.
  - unfold Rmin, Rmax; repeat destruct (Rle_dec _ _); lra.
  - intros t c Hts1 Hcs1 _.
    rewrite (Hst1 t) by (intros x Hx; eapply Hts1, In_firstn_In, Hx).
    rewrite (Hsc1 c) by (intros x Hx; eapply Hcs1, In_firstn_In, Hx).
    unfold Rmin, Rmax; repeat destruct (Rle_dec _ _); lra.
Qed.

(** X10. For finite, non-empty temperature and cloud-cover channels the
    quality score is a finite number between 0.41 and 0.99, whatever the
    precipitation channel holds. *)
Theorem forecast_quality_range :
  forall (f : EnhancedWeatherForecast) (temps clouds : list R),
    temperature_2m f = map Fin temps -> temps <> [] ->
    cloud_cover f = map Fin clouds -> clouds <> [] ->
    exists q, calculateForecastQuality f = Fin q /\ 0.41 <= q <= 0.99.
Proof.
  intros f temps clouds Ht Hts Hc Hcs.
  destruct (quality_Fin f temps clouds Ht Hts Hc Hcs) as [q [Hq [Hr _]]].
  now exists q.
Qed.

(** X10 on three varying samples with rain. *)
Lemma forecast_quality_range_of_three_samples :
  exists q,
    calculateForecastQuality
      (plainForecast [20; 22; 19] [10; 30; 80] [0; 0; 0] (Some [Fin 0; Fin 2])) = Fin q /\
    0.41 <= q <= 0.99.
Proof.
  apply (forecast_quality_range _ [20; 22; 19] [10; 30; 80]);
    (reflexivity || discriminate).
Defined.



Lemma div_zero_zero : (Fin 0 / ofNat 0)%js = NaN.
Proof.
  unfold ofNat, div. cbn [INR].
  destruct (Req_dec_T 0 0) as [_ | N]; [reflexivity | contradiction].
Qed.

Lemma stability_empty (g : number -> number -> number) (d : R) :
  Math.max 0.3
    (1 - Math.sqrt (reduce g (Fin 0) [] / ofNat (List.length (@nil number))) /
         Fin d)%js = NaN.
Proof.
  cbn [reduce fold_left List.length]. now rewrite div_zero_zero.
Qed.

Lemma quality_NaN (tempStability precipFactor : number) :
  Math.min 0.99
    (Math.max 0.1 (tempStability * 0.4 + NaN * 0.4 + precipFactor * 0.2)%js) = NaN.
Proof.
  change (NaN * 0.4)%js with NaN. now rewrite add_NaN_r.
Qed.

(** X12. With a non-empty temperature channel and an empty cloud-cover
    channel the quality score is [NaN]: the mean of the empty cloud window
    is [0/0], and the clamp to [[0.1, 0.99]] does not remove it. *)
Theorem forecast_quality_without_cloud_cover :
  forall f : EnhancedWeatherForecast,
    temperature_2m f <> [] ->
    cloud_cover f = [] ->
    calculateForecastQuality f = NaN.
Proof.
  intros f Ht Hc. unfold calculateForecastQuality.
  destruct (Nat.eqb_spec (List.length (temperature_2m f)) 0) as [E | _].
  - apply length_zero_iff_nil in E. contradiction.
  - cbv zeta. rewrite Hc. unfold slice0 at 3. rewrite firstn_nil.
    rewrite stability_empty. apply quality_NaN.
Qed.

(** X12 on one temperature sample. *)
Lemma forecast_quality_without_cloud_cover_of_one_sample :
  calculateForecastQuality (plainForecast [20] [] [0] None) = NaN.
Proof.
  apply forecast_quality_without_cloud_cover; [discriminate | reflexivity].
Defined.

(** ** Solar potential *)

Lemma filter_none {A : Type} (p : A -> bool) (l : list A) :
  (forall x, In x l -> p x = false) -> filter p l = [].
Proof.
  induction l as [| a rest IH]; intros H; cbn [filter]; [reflexivity |].
  rewrite (H a) by now left. apply IH. intros x Hx. apply H. now right.
Qed.

(** X13. Without a positive radiation value (in particular on an empty
    radiation channel) the solar potential is 0. *)
Theorem solar_potential_without_radiation :
  forall f : EnhancedWeatherForecast,
    (forall r, In r (shortwave_radiation f) -> (r >? 0)%js = false) ->
    calculateSolarPotential f = Fin 0.
Proof.
  intros f H. unfold calculateSolarPotential.
  destruct (List.length (shortwave_radiation f) =? 0)%nat; [reflexivity |].
  cbv zeta. now rewrite (filter_none _ _ H).
Qed.

(** X13 on a night-time series. *)
Lemma solar_potential_at_night :
  calculateSolarPotential (plainForecast [5; 4] [20; 30] [0; 0] None) = Fin 0.
Proof.
  apply solar_potential_without_radiation.
  intros r [<- | [<- | []]]; unfold gt; apply lt_Fin_false; lra.
Defined.

Lemma filter_positive_Fin (l : list R) :
  filter (fun r => (r >? 0)%js) (map Fin l) = map Fin (filter positiveR l).
Proof.
  induction l as [| a rest IH]; cbn [map filter]; [reflexivity |].
  unfold gt at 1, lt, positiveR at 1.
  destruct (Rlt_dec 0 a); cbn [map]; now rewrite IH.
Qed.

Lemma sum_bounds (lo hi : R) (l : list R) :
  (forall x, In x l -> lo <= x <= hi) ->
  forall acc,
    acc + INR (List.length l) * lo <= fold_left Rplus l acc
    <= acc + INR (List.length l) * hi.
Proof.
  induction l as [| a rest IH]; intros H acc; cbn [fold_left List.length].
  - simpl. lra.
  - rewrite S_INR.
    specialize (IH (fun x Hx => H x (or_intror Hx)) (acc + a)).
    specialize (H a (or_introl eq_refl)). lra.
Qed.

Lemma sum_positive (l : list R) :
  l <> [] -> (forall x, In x l -> 0 < x) -> 0 < fold_left Rplus l 0.
Proof.
  destruct l as [| a rest]; [congruence | intros _ H].
  cbn [fold_left]. rewrite fold_left_Rplus.
  assert (0 <= fold_right Rplus 0 rest).
  { assert (Hr : forall x, In x rest -> 0 < x) by (intros x Hx; apply H; now right).
    clear H. induction rest as [| b rest IH]; cbn [fold_right]; [lra |].
    specialize (Hr b (or_introl eq_refl)) as Hb.
    assert (0 <= fold_right Rplus 0 rest)
      by (apply IH; intros x Hx; apply Hr; now right).
    lra. }
  specialize (H a (or_introl eq_refl)). lra.
Qed.

(** X14. With at least one positive radiation value, finite radiation, and
    a non-empty cloud-cover channel with values in [[0, 100]], the solar
    potential is a whole number between 0 and 100. *)
Theorem solar_potential_range :
  forall (f : EnhancedWeatherForecast) (radiation clouds : list R) (r : R),
    shortwave_radiation f = map Fin radiation ->
    In r radiation -> 0 < r ->
    cloud_cover f = map Fin clouds -> clouds <> [] ->
    (forall c, In c clouds -> 0 <= c <= 100) ->
    exists z : Z,
      calculateSolarPotential f = Fin (IZR z) /\ (0 <= z <= 100)%Z.
Proof.
  intros f radiation clouds r Hrad Hr Hpos Hc Hcs Hrange.
  unfold calculateSolarPotential. rewrite Hrad, Hc, !length_map.
  assert (Hne : radiation <> []) by (intros E; rewrite E in Hr; destruct Hr).
  pose proof (INR_length_pos radiation Hne) as Hlr.
  destruct (Nat.eqb_spec (List.length radiation) 0) as [E | _];
    [rewrite E in Hlr; simpl in Hlr; lra |].
  cbv zeta. rewrite filter_positive_Fin, length_map.
  set (day := filter positiveR radiation).
  assert (Hday : day <> []).
  { intros E. assert (Hin : In r day).
    { apply filter_In. split; [exact Hr |].
      unfold positiveR. destruct (Rlt_dec 0 r); [reflexivity | contradiction]. }
    rewrite E in Hin. destruct Hin. }
  pose proof (INR_length_pos day Hday) as Hld.
  destruct (Nat.eqb_spec (List.length day) 0) as [E | _];
    [rewrite E in Hld; simpl in Hld; lra |].
  pose proof (INR_length_pos clouds Hcs) as Hlc.
  rewrite !reduce_add_Fin. unfold ofNat.
  rewrite !div_Fin by lra. fin_norm. rewrite !div_Fin by lra. fin_norm.
  set (ar := fold_left Rplus day 0 / INR (List.length day)).
  set (ac := fold_left Rplus clouds 0 / INR (List.length clouds)).
  assert (Har : 0 < ar).
  { unfold ar. apply Rdiv_lt_0_compat; [| exact Hld].
    apply sum_positive; [exact Hday |].
    intros x Hx. apply filter_In in Hx. destruct Hx as [_ Hx].
    unfold positiveR in Hx. destruct (Rlt_dec 0 x); [assumption | discriminate]. }
  assert (Hac : 0 <= ac <= 100).
  { destruct (sum_bounds 0 100 clouds Hrange 0) as [H1 H2]. unfold ac.
    split.
    - apply Rmult_le_pos; [lra | apply Rlt_le, Rinv_0_lt_compat, Hlc].
    - apply Rmult_le_reg_r with (INR (List.length clouds)); [exact Hlc |].
      unfold Rdiv. rewrite Rmult_assoc, Rinv_l by lra. lra. }
  set (rf := Rmin 1 (ar / 800)).
  assert (Hrf : 0 <= rf <= 1).
  { unfold rf. split; [apply Rmin_glb; lra | apply Rmin_l]. }
  cbn [mathRound].
  set (x := (100 - ac) / 100 * rf * 100).
  assert (Hx : 0 <= x <= 100) by (unfold x; split; nra).
  exists (Int_part (x + / 2)). split; [reflexivity |].
  destruct (base_Int_part (x + / 2)) as [H1 H2].
  split.
  - assert (IZR (-1) < IZR (Int_part (x + / 2))) by lra.
    apply lt_IZR in H. lia.
  - assert (IZR (Int_part (x + / 2)) < IZR 101) by lra.
    apply lt_IZR in H. lia.
Qed.

(** X14 on a sunny afternoon. *)
Lemma solar_potential_range_of_afternoon :
  exists z : Z,
    calculateSolarPotential (plainForecast [20; 21] [10; 30] [400; 0] None)
      = Fin (IZR z) /\ (0 <= z <= 100)%Z.
Proof.
  apply (solar_potential_range _ [400; 0] [10; 30] 400).
  - reflexivity.
  - now left.
  - lra.
  - reflexivity.
  - discriminate.
  - intros c [<- | [<- | []]]; lra.
Defined.

(** ** Further properties of the forecast *)

Lemma predictedIrradiance_bound (b ci af T : R) :
  0 <= b -> 0 <= ci <= 1 -> 0 <= af <= 0.95 ->
  exists p,
    (Math.max 0
       (Math.max 0 (Fin b * Fin ci * Fin af) * 0.85 *
        (1 + (-0.004)%R * Math.max 0 (Fin T - 25))))%js = Fin p /\
    0 <= p <= 0.8075 * b.
Proof.
  intros Hb Hci Haf. fin_norm.
  eexists; split; [reflexivity |]. split; [apply Rmax_l |].
  assert (Hnn : 0 <= b * ci * af)
    by (apply Rmult_le_pos; [apply Rmult_le_pos |]; lra).
  apply Rmax_lub; [lra |].
  rewrite (Rmax_right 0 (b * ci * af)) by exact Hnn.
  pose proof (Rmax_l 0 (T - 25)) as Hd.
  set (D := Rmax 0 (T - 25)) in *.
  assert (Hbc : 0 <= b * ci <= b) by nra.
  assert (Hprod : 0 <= b * ci * af <= 0.95 * b) by nra.
  set (P := b * ci * af) in *.
  assert (HPD : 0 <= P * D) by (apply Rmult_le_pos; lra).
  lra.
Qed.

Section ForecastCeiling.

Variable parseFloat : string -> number.
Variable newDate : string -> JSDate.

(** X15. For finite coordinates, a valid timestamp and finite sample
    values with non-negative observed radiation [b], the predicted
    irradiance lies between 0 and [0.8075·b]: the forecast never exceeds
    80.75 % (0.95 · 0.85) of the observed shortwave radiation. *)
Theorem forecast_at_most_observed_radiation :
  forall (location : LocationData) (historicalData : list SolarDataPoint)
         (w : WeatherForecastData) (i : nat) (t : string) (b c T : R),
    finite (coordinate parseFloat (latitude location)) ->
    finite (coordinate parseFloat (longitude location)) ->
    nth_error (time w) i = Some t ->
    validDate (newDate t) ->
    nth_error (shortwave_radiation w) i = Some (Fin b) ->
    nth_error (cloud_cover w) i = Some (Fin c) ->
    nth_error (temperature_2m w) i = Some (Fin T) ->
    0 <= b ->
    exists forecast point p,
      generateSolarForecast parseFloat newDate location historicalData w
        = Resolved forecast /\
      nth_error forecast i = Some point /\
      ForecastPoint.predictedIrradiance point = Fin p /\
      0 <= p <= 0.8075 * b.
Proof.
  intros location historicalData w i t b c T Hlat Hlon Ht Hd Hb Hc HT Hb0.
  destruct (generateSolarForecast_nth parseFloat newDate location historicalData
              w i t Ht) as [forecast [Hres Hnth]].
  destruct (finite_Fin _ Hlat) as [lat Elat], (finite_Fin _ Hlon) as [lon Elon].
  rewrite Elat, Elon in Hnth.
  destruct Hd as [T0 [Y [h [m Hd]]]].
  pose proof (elevation_Fin lat lon T0 Y h m) as He. rewrite <- Hd in He.
  exists forecast, (forecastSample newDate (Fin lat) (Fin lon) w t i).
  destruct (Rlt_dec (elevationR lat lon T0 Y h m) 0) as [Hneg | Hpos].
  - exists 0. split; [exact Hres |]. split; [exact Hnth |].
    unfold forecastSample. rewrite He, lt_Fin_true by exact Hneg.
    split; [reflexivity | lra].
  - assert (Hval : exists p,
      daytimeIrradiance w i (Fin (elevationR lat lon T0 Y h m)) = Fin p /\
      0 <= p <= 0.8075 * b).
    { unfold daytimeIrradiance, baseGHIAt, cloudCoverAt, temperatureAt.
      rewrite Hb, Hc, HT, !orElse_zero, orElse_Fin.
      destruct (calculateCloudImpact_range c (if Req_dec_T T 0 then 25 else T))
        as [ci [-> Hci]].
      destruct (estimateAerosolFactor_range (elevationR lat lon T0 Y h m))
        as [af [-> Haf]].
      apply predictedIrradiance_bound; [exact Hb0 | lra | exact Haf]. }
    destruct Hval as [p [Hp Hrange]].
    exists p. split; [exact Hres |]. split; [exact Hnth |].
    rewrite forecastSample_day; rewrite He; [| apply lt_Fin_false; lra].
    split; [exact Hp | exact Hrange].
Qed.

End ForecastCeiling.

(** X15 at [sunriseSite] on [oneSample]. *)
Lemma forecast_at_most_observed_radiation_at_sunriseSite :
  exists forecast point p,
    generateSolarForecast noNumeral exampleNewDate sunriseSite [] oneSample
      = Resolved forecast /\
    nth_error forecast 0 = Some point /\
    ForecastPoint.predictedIrradiance point = Fin p /\
    0 <= p <= 0.8075 * 800.
Proof.
  apply (forecast_at_most_observed_radiation noNumeral exampleNewDate
           sunriseSite [] oneSample 0 "2024-01-01T00:00" 800 0 25);
    try reflexivity.
  - unfold validDate. cbn. do 4 eexists. reflexivity.
  - lra.
Defined.

(** ** Further properties of the trend estimator *)



(** ** Further properties of the confidence and of the cloud impact *)

(** The daytime confidence as a function of the elevation alone: the cloud
    and temperature factors do not depend on it. *)
Lemma predictConfidence_profile (x T : number) (i : nat) (w : WeatherForecastData) :
  Forall finite (cloud_cover w) ->
  exists cc tc,
    cc <= 1 /\ (tc = 0.7 \/ tc = 0.9) /\
    forall e, 0 <= e ->
      predictConfidence x (Fin e) T i w
      = Fin (Rmax 0.1 (cc * Rmin 1 (e / 80) * tc)).
Proof.
  intros Hw.
  assert (Hv : exists v,
    (if ((0 <? Z.of_nat i)%Z &&
         (Z.of_nat i <? Z.of_nat (List.length (cloud_cover w)) - 1)%Z)%bool
     then (Math.abs (toNumber (nth_error (cloud_cover w) (i - 1)) -
                     toNumber (nth_error (cloud_cover w) (i + 1))) / 100)%js
     else Fin 0) = Fin v /\ 0 <= v).
  { destruct ((0 <? Z.of_nat i)%Z &&
              (Z.of_nat i <? Z.of_nat (List.length (cloud_cover w)) - 1)%Z)%bool
      eqn:G; [| exists 0; split; [reflexivity | lra]].
    apply andb_prop in G. destruct G as [G1 G2].
    apply Z.ltb_lt in G1, G2.
    destruct (cloud_neighbour_finite _ (i - 1) Hw) as [p ->]; [lia |].
    destruct (cloud_neighbour_finite _ (i + 1) Hw) as [q ->]; [lia |].
    fin_norm. rewrite div_Fin by lra.
    eexists; split; [reflexivity |].
    pose proof (Rabs_pos (p - q)). lra. }
  destruct Hv as [v [Hv Hv0]].
  destruct ((T <? (-10)%R)%js || (T >? 40)%js)%bool eqn:Htc;
    [exists (1 - v * 0.4), 0.7 | exists (1 - v * 0.4), 0.9];
    (split; [lra |]); (split; [auto |]);
    intros e He; unfold predictConfidence;
    rewrite lt_Fin_false by lra; cbv zeta;
    rewrite Hv, Htc, div_Fin by lra; fin_norm; reflexivity.
Qed.



(** X18. Up to 31 °C the temperature plays no part in the cloud impact: the
    temperature proxy is at its floor 0.8 there. *)
Theorem cloud_impact_ignores_cool_temperatures :
  forall (cloudCover : number) (T1 T2 : R),
    T1 <= 31 -> T2 <= 31 ->
    calculateCloudImpact cloudCover (Fin T1) = calculateCloudImpact cloudCover (Fin T2).
Proof. exact calculateCloudImpact_cool. Qed.

(** X18 between -20 °C and 30 °C at 50 % cloud cover. *)
Lemma cloud_impact_same_at_minus20_and_30 :
  calculateCloudImpact (Fin 50) (Fin (-20)) = calculateCloudImpact (Fin 50) (Fin 30).
Proof. apply cloud_impact_ignores_cool_temperatures; lra. Defined.

(** X19. From 10 % cloud cover on, the cloud impact is a finite factor that
    does not increase with the cloud cover, at every temperature. *)
Theorem cloud_impact_nonincreasing_from_10 :
  forall c1 c2 T : R,
    10 <= c1 -> c1 <= c2 ->
    exists r1 r2,
      calculateCloudImpact (Fin c1) (Fin T) = Fin r1 /\
      calculateCloudImpact (Fin c2) (Fin T) = Fin r2 /\
      r2 <= r1.
Proof. exact calculateCloudImpact_nonincreasing_from_10. Qed.

(** X19 between 20 % and 95 % cloud cover at 15 °C. *)
Lemma cloud_impact_between_20_and_95 :
  exists r1 r2,
    calculateCloudImpact (Fin 20) (Fin 15) = Fin r1 /\
    calculateCloudImpact (Fin 95) (Fin 15) = Fin r2 /\
    r2 <= r1.
Proof. apply cloud_impact_nonincreasing_from_10; lra. Defined.
